(** * ReactServerStack: the CDK stack of the react-server AWS adapter

    A shallow embedding of
    [packages/react-server-adapter-aws/setup/cdk/cdk/lib/react-server-stack.ts].

    The stack constructor is a straight-line sequence of construct
    declarations with one guard (the CloudFront behaviour quota) and three
    optional branches (certificate, hosted zone, custom domain).  Declaring a
    construct with [new X(this, id, props)] mutates the construct tree of the
    stack, and a [throw] leaves that tree as it was at the point of the
    throw, so the constructor is embedded in a state-and-exception monad
    whose state survives an exception.

    The constructs are declared through the CDK library, which is not part
    of this file: a library constructor may throw on the properties it is
    given, and may put further children of its own into the stack
    (singleton providers and handlers).  Both are taken from the [Host],
    next to the file system and the deploy-time tokens. *)

From Stdlib Require Import String Ascii List ZArith Bool Lia DecimalString.
Import ListNotations.

Local Open Scope string_scope.
Local Open Scope Z_scope.

(** ** JavaScript values and operators used by the constructor *)

Module Js.

(** The primitive values that occur in the expressions of the constructor. *)
Inductive Value : Type :=
| Undefined
| Number (n : Z)
| Boolean (b : bool)
| Str (s : string).

(** [ToBoolean]: what [cond ? a : b], [if (cond)] and [&&] test. *)
Definition truthy (v : Value) : bool :=
  match v with
  | Undefined => false
  | Number n => negb (n =? 0)
  | Boolean b => b
  | Str s => negb (s =? "")%string
  end.

(** [a ?? b] *)
Definition coalesce (a b : Value) : Value :=
  match a with
  | Undefined => b
  | _ => a
  end.

(** An optional string property read as a value. *)
Definition ofString (o : option string) : Value :=
  match o with
  | Some s => Str s
  | None => Undefined
  end.

(** [s?.length]: [undefined] when [s] is, the length otherwise.  Only
    whether the length is zero is ever observed, so the byte length
    stands for the UTF-16 length. *)
Definition optLength (o : option string) : Value :=
  match o with
  | Some s => Number (Z.of_nat (String.length s))
  | None => Undefined
  end.

(** [`${s}`] for an optional string. *)
Definition template (o : option string) : string :=
  match o with
  | Some s => s
  | None => "undefined"
  end.

(** [`${n}`] for an integer.  Up to 2^53 in magnitude every integer is a
    Number and prints as its decimal digits.  Beyond that JavaScript prints
    the shortest digits that identify the double, in exponent notation from
    1e21 on; that rendering is the runtime's and is taken as [large]. *)
Definition templateNumber (large : Z -> string) (n : Z) : string :=
  if Z.abs n <=? 2 ^ 53 then NilZero.string_of_int (Z.to_int n) else large n.

End Js.

(** ** Stack properties *)

Record ICertificate : Type := { certificateArn : string }.

Record IHostedZone : Type := { hostedZoneId : string; zoneName : string }.

(** The [certificate] property is either a certificate object or a string. *)
Inductive CertificateProp : Type :=
| CertificateString (s : string)
| CertificateObject (c : ICertificate).

(** Modelled from the spec: the type [CustomStackProps] is declared in
    [../bin/infrastructure], which is not part of the sources at hand; the
    fields are the ones the constructor reads, all optional ("optional
    certificate, hosted-zone, subdomain, domain name, and
    maximum-behavior-count fields").  The behaviour count is an integer. *)
Record CustomStackProps : Type := {
  certificate : option CertificateProp;
  hostedZone : option IHostedZone;
  subDomain : option string;
  domainName : option string;
  maxBehaviors : option Z
}.

(** [cdk.StackProps & { customStackProps }]; every read goes through
    [props.customStackProps?.field], so an absent object reads as all
    fields absent. *)
Record ReactServerStackProps : Type := {
  customStackProps : option CustomStackProps
}.

(** [props.customStackProps?.field] *)
Definition optField {A : Type} (f : CustomStackProps -> option A)
    (props : ReactServerStackProps) : option A :=
  match customStackProps props with
  | Some c => f c
  | None => None
  end.

(** ** The constructs the stack declares *)

Inductive RemovalPolicy : Type := DESTROY | RETAIN | SNAPSHOT.
Inductive Runtime : Type := NODEJS_18_X | NODEJS_20_X.
Inductive Architecture : Type := ARM_64 | X86_64.
Inductive RetentionDays : Type := ONE_DAY | THREE_DAYS | ONE_WEEK.
Inductive Tracing : Type := ACTIVE | PASS_THROUGH | DISABLED.
Inductive PayloadFormatVersion : Type := VERSION_1_0 | VERSION_2_0.
Inductive AllowedMethods : Type := ALLOW_GET_HEAD | ALLOW_GET_HEAD_OPTIONS | ALLOW_ALL.
Inductive ViewerProtocolPolicy : Type := HTTPS_ONLY | REDIRECT_TO_HTTPS | ALLOW_ALL_PROTOCOLS.
Inductive CachePolicy : Type := CACHING_OPTIMIZED | CACHING_DISABLED.
Inductive OriginRequestPolicy : Type := ALL_VIEWER | ALL_VIEWER_EXCEPT_HOST_HEADER.
Inductive SecurityPolicyProtocol : Type := TLS_V1_2_2019 | TLS_V1_2_2021.
Inductive HttpVersion : Type := HTTP1_1 | HTTP2 | HTTP2_AND_3.
Inductive PriceClass : Type := PRICE_CLASS_100 | PRICE_CLASS_200 | PRICE_CLASS_ALL.
Inductive ParameterTier : Type := STANDARD | ADVANCED | INTELLIGENT_TIERING.

(** Cache-control directives, durations in days. *)
Inductive CacheControl : Type :=
| maxAge (days : Z)
| sMaxAge (days : Z).

(** A construct declared in the stack is referred to by its id. *)
Definition Ref : Type := string.

Record BucketProps : Type := {
  removalPolicy : RemovalPolicy;
  autoDeleteObjects : bool
}.

Record FunctionProps : Type := {
  runtime : Runtime;
  handler : string;
  code : string;
  environment : list (string * string);
  architecture : Architecture;
  memorySize : Z;
  timeout : Z;
  logRetention : RetentionDays;
  tracing : Tracing
}.

Record HttpLambdaIntegration : Type := {
  integrationId : string;
  integrationHandler : Ref;
  payloadFormatVersion : PayloadFormatVersion
}.

Record HttpApiProps : Type := {
  defaultIntegration : HttpLambdaIntegration
}.

Inductive Origin : Type :=
| HttpOrigin (domain : string)
| S3BucketOriginWithOAC (bucket : Ref).

(** [cloudfront.AddBehaviorOptions]; every field is optional. *)
Record AddBehaviorOptions : Type := {
  allowedMethods : option AllowedMethods;
  viewerProtocolPolicy : option ViewerProtocolPolicy;
  cachePolicy : option CachePolicy;
  originRequestPolicy : option OriginRequestPolicy;
  compress : option bool
}.

Record Behavior : Type := {
  origin : Origin;
  options : AddBehaviorOptions
}.

Record DistributionProps : Type := {
  defaultBehavior : Behavior;
  domainNames : option (list string);
  distributionCertificate : option ICertificate;
  enableIpv6 : bool;
  minimumProtocolVersion : SecurityPolicyProtocol;
  httpVersion : HttpVersion;
  priceClass : PriceClass
}.

Record BucketDeploymentProps : Type := {
  sources : list string;
  destinationBucket : Ref;
  deploymentDistribution : Ref;
  distributionPaths : list string;
  prune : bool;
  cacheControl : list CacheControl
}.

Inductive RecordTarget : Type :=
| CloudFrontTarget (distribution : Ref).

Record ARecordProps : Type := {
  zone : IHostedZone;
  target : RecordTarget;
  recordName : string
}.

Record StringParameterProps : Type := {
  parameterName : string;
  stringValue : string;
  tier : ParameterTier
}.

Record CfnOutputProps : Type := {
  value : string
}.

(** A distribution carries, besides its properties, the behaviours that
    [addBehavior] has added to it so far, in the order they were added.
    [FrameworkNode] is a child of the stack that the library put there on
    its own account: a singleton provider, handler or mapping that one of
    its constructors needs, or what a constructor that threw left behind. *)
Inductive Construct : Type :=
| Bucket (p : BucketProps)
| LambdaFunction (p : FunctionProps)
| HttpApi (p : HttpApiProps)
| Distribution (p : DistributionProps) (additionalBehaviors : list (string * Behavior))
| BucketDeployment (p : BucketDeploymentProps)
| ARecord (p : ARecordProps)
| StringParameter (p : StringParameterProps)
| CfnOutput (p : CfnOutputProps)
| FrameworkNode.

(** The children of the stack, in declaration order. *)
Definition Tree : Type := list (string * Construct).

(** ** Declaration monad: construct tree as state, exceptions that keep it *)

Inductive Error : Type :=
| JsError (message : string)          (* [throw new Error(message)] *)
| FrameworkError (id message : string) (* the library constructor of the construct [id] threw *)
| DuplicateId (id : string)           (* the construct library refuses a second child of the same id *)
| FsError (path : string).            (* [readdirSync] or [statSync] failed *)

Inductive Outcome (A : Type) : Type :=
| Returned (a : A)
| Thrown (e : Error).
Arguments Returned {A} a.
Arguments Thrown {A} e.

Definition M (A : Type) : Type := Tree -> Tree * Outcome A.

Definition ret {A : Type} (a : A) : M A := fun t => (t, Returned a).

Definition bind {A B : Type} (m : M A) (k : A -> M B) : M B :=
  fun t =>
    match m t with
    | (t', Returned a) => k a t'
    | (t', Thrown e) => (t', Thrown e)
    end.

Definition throw {A : Type} (e : Error) : M A := fun t => (t, Thrown e).

Declare Scope decl_scope.
Delimit Scope decl_scope with decl.
Notation "x <- m ;; k" := (bind m (fun x => k))
  (at level 100, m at next level, right associativity) : decl_scope.
Notation "m ;; k" := (bind m (fun _ => k))
  (at level 100, right associativity) : decl_scope.
Local Open Scope decl_scope.

(** [if (cond) { body }] *)
Definition when (cond : bool) (body : M unit) : M unit :=
  if cond then body else ret tt.

(** [for (const x of xs) { body x }] *)
Fixpoint forOf {A : Type} (xs : list A) (body : A -> M unit) : M unit :=
  match xs with
  | [] => ret tt
  | x :: rest => body x ;; forOf rest body
  end.

Definition hasChild (id : string) (t : Tree) : bool :=
  existsb (fun entry => (fst entry =? id)%string) t.

Definition addBehaviorTo (pathPattern : string) (b : Behavior) (c : Construct) : Construct :=
  match c with
  | Distribution p bs => Distribution p (bs ++ [(pathPattern, b)])%list
  | other => other
  end.

(** [distribution.addBehavior(pathPattern, origin, behaviorOptions)]: the
    distribution object, which the tree holds, is updated in place. *)
Definition addBehavior (distribution : Ref) (pathPattern : string)
    (o : Origin) (opts : AddBehaviorOptions) : M unit :=
  fun t =>
    (map (fun entry =>
            if (fst entry =? distribution)%string
            then (fst entry, addBehaviorTo pathPattern {| origin := o; options := opts |} (snd entry))
            else entry) t,
     Returned tt).

(** ** What the framework, the runtime and the file system supply *)

(** A library constructor that throws: the message of its error, and the
    ids of the nodes it leaves in the stack (itself, once registered, and
    what it had added by then). *)
Record Rejection : Type := {
  rejectionMessage : string;
  leftBehind : list string
}.

(** The module reads its own location, joins paths, lists one directory and
    asks the framework for the stack name and for the attributes of the
    constructs it has declared (deploy-time tokens, which are strings while
    the stack is being declared).  The library decides, for each construct
    the module declares, whether its constructor throws and which further
    children of the stack it needs. *)
Record Host : Type := {
  dirname : string;                              (* [__dirname] *)
  join : string -> string -> string;             (* [join] of node:path *)
  readdirSync : string -> option (list string);  (* [None]: it throws *)
  statIsDirectory : string -> option bool;       (* [statSync(p).isDirectory()] *)
  stackName : string;
  region : string;
  urlSuffix : string;
  httpApiId : Ref -> string;
  distributionDomainName : Ref -> string;
  distributionId : Ref -> string;
  numberToString : Z -> string;                  (* [`${n}`] beyond 2^53 *)
  frameworkRejects : string -> Construct -> option Rejection;
  frameworkChildren : string -> Construct -> list string
}.

(** The library creates its stack-level children as singletons: a child of
    the given id is created unless the stack already has one. *)
Fixpoint addSingletons (ids : list string) (t : Tree) : Tree :=
  match ids with
  | [] => t
  | id :: rest =>
      addSingletons rest (if hasChild id t then t else (t ++ [(id, FrameworkNode)])%list)
  end.

(** [new X(this, id, props)].  A second child of the same id is refused.
    Otherwise the library constructor runs: if it throws, the tree keeps
    what the constructor left behind; if it returns, the construct is a
    child of the stack, followed by the children the library needed and
    the stack did not have yet. *)
Definition declare (h : Host) (id : string) (c : Construct) : M Ref :=
  fun t =>
    if hasChild id t then (t, Thrown (DuplicateId id))
    else match frameworkRejects h id c with
         | Some r =>
             (addSingletons (leftBehind r) t,
              Thrown (FrameworkError id (rejectionMessage r)))
         | None =>
             (addSingletons (frameworkChildren h id c) (t ++ [(id, c)])%list,
              Returned id)
         end.

(** [names.filter((name) => statSync(join(source, name)).isDirectory())] *)
Fixpoint filterDirectories (h : Host) (source : string) (names : list string)
    : option (list string) :=
  match names with
  | [] => Some []
  | name :: rest =>
      match statIsDirectory h (join h source name) with
      | Some isDir =>
          match filterDirectories h source rest with
          | Some dirs => Some (if isDir then name :: dirs else dirs)
          | None => None
          end
      | None => None
      end
  end.

Definition getDirectories (h : Host) (source : string) : option (list string) :=
  match readdirSync h source with
  | Some names => filterDirectories h source names
  | None => None
  end.

Definition awsOutputDirectory (h : Host) : string :=
  join h (dirname h) "../../.aws-react-server/output".

Definition staticDirectory (h : Host) : string :=
  join h (awsOutputDirectory h) "static".

(** The directories the constructor discovers, when the listing succeeds. *)
Definition cfS3directories (h : Host) : option (list string) :=
  getDirectories h (staticDirectory h).

(** The same listing as the constructor runs it, where a failing call
    throws the error of that call: [readdirSync] names the directory,
    [statSync] the entry it was called on. *)
Definition readdirSyncOrThrow (h : Host) (source : string) : M (list string) :=
  match readdirSync h source with
  | Some names => ret names
  | None => throw (FsError source)
  end.

Definition statSyncIsDirectory (h : Host) (path : string) : M bool :=
  match statIsDirectory h path with
  | Some isDir => ret isDir
  | None => throw (FsError path)
  end.

Fixpoint filterDirectoriesOrThrow (h : Host) (source : string) (names : list string)
    : M (list string) :=
  match names with
  | [] => ret []
  | name :: rest =>
      isDir <- statSyncIsDirectory h (join h source name) ;;
      dirs <- filterDirectoriesOrThrow h source rest ;;
      ret (if isDir then name :: dirs else dirs)
  end.

Definition getDirectoriesOrThrow (h : Host) (source : string) : M (list string) :=
  names <- readdirSyncOrThrow h source ;;
  filterDirectoriesOrThrow h source names.

(** ** The values computed at the head of the constructor *)

(** Lines 42-46: a certificate counts only if it is truthy and not a string. *)
Definition certificateValue (c : option CertificateProp) : Js.Value :=
  match c with
  | None => Js.Undefined
  | Some (CertificateString s) => Js.Str s
  | Some (CertificateObject _) => Js.Boolean true   (* an object is truthy *)
  end.

Definition typeofIsString (c : option CertificateProp) : bool :=
  match c with
  | Some (CertificateString _) => true
  | _ => false
  end.

Definition certificateOf (props : ReactServerStackProps) : option ICertificate :=
  let c := optField certificate props in
  if Js.truthy (certificateValue c) && negb (typeofIsString c)
  then match c with
       | Some (CertificateObject cert) => Some cert
       | _ => None
       end
  else None.

(** Lines 51-53.  [subDomain?.length ?? 0 > 0] parses as
    [subDomain?.length ?? (0 > 0)], since [>] binds tighter than [??]. *)
Definition siteDomainNameOf (subDomain domainName : option string) : option string :=
  if Js.truthy (Js.ofString domainName)
  then Some ((if Js.truthy (Js.coalesce (Js.optLength subDomain) (Js.Boolean (0 >? 0)))
              then Js.template subDomain ++ "."
              else "")
             ++ Js.template domainName)
  else None.

Definition siteDomainName (props : ReactServerStackProps) : option string :=
  siteDomainNameOf (optField subDomain props) (optField domainName props).

(** Line 54: [props.customStackProps?.maxBehaviors ?? 25] *)
Definition maxBehaviorsOf (props : ReactServerStackProps) : Z :=
  match optField maxBehaviors props with
  | Some n => n
  | None => 25
  end.

(** Line 32 *)
Definition distributionUrlParameterName (h : Host) : string :=
  "/" ++ stackName h ++ "/distribution/url".

Definition quotaMessage (h : Host) (maxBehaviors : Z) : string :=
  "CloudFront distributions can only have up to "
  ++ Js.templateNumber (numberToString h) maxBehaviors
  ++ " behaviors. Please reduce the number of directories in the static directory or request a higher quota.".

(** [siteDomainName ? siteDomainName : distribution.distributionDomainName] *)
Definition publishedDomain (h : Host) (site : option string) (distribution : Ref) : string :=
  if Js.truthy (Js.ofString site) then Js.template site
  else distributionDomainName h distribution.

Definition requestHandlerBehavior : AddBehaviorOptions :=
  {| allowedMethods := Some ALLOW_ALL;
     viewerProtocolPolicy := Some REDIRECT_TO_HTTPS;
     cachePolicy := Some CACHING_DISABLED;
     originRequestPolicy := Some ALL_VIEWER_EXCEPT_HOST_HEADER;
     compress := Some true |}.

Definition assetBehaviorOptions : AddBehaviorOptions :=
  {| allowedMethods := None;
     viewerProtocolPolicy := Some REDIRECT_TO_HTTPS;
     cachePolicy := None;
     originRequestPolicy := None;
     compress := Some true |}.

(** ** The constructor *)

Definition constructor (h : Host) (props : ReactServerStackProps) : M unit :=
  let certificate := certificateOf props in
  let hostedZone := optField hostedZone props in
  let subDomain := optField subDomain props in
  let siteDomainName := siteDomainName props in
  let maxBehaviors := maxBehaviorsOf props in
  bucket <- declare h "StaticAssetsBucket"
              (Bucket {| removalPolicy := DESTROY; autoDeleteObjects := true |}) ;;
  fn <- declare h "RequestHandler"
          (LambdaFunction
             {| runtime := NODEJS_20_X;
                handler := "index.handler";
                code := join h (awsOutputDirectory h) "functions/index.func";
                environment := [("NODE_ENV", "production")];
                architecture := ARM_64;
                memorySize := 256;
                timeout := 10;
                logRetention := THREE_DAYS;
                tracing := ACTIVE |}) ;;
  let integration :=
    {| integrationId := "RequestHandlerIntegration";
       integrationHandler := fn;
       payloadFormatVersion := VERSION_2_0 |} in
  httpApi <- declare h "WebsiteApi" (HttpApi {| defaultIntegration := integration |}) ;;
  let httpApiUrl :=
    httpApiId h httpApi ++ ".execute-api." ++ region h ++ "." ++ urlSuffix h in
  let requestHandlerOrigin := HttpOrigin httpApiUrl in
  let assetOrigin := S3BucketOriginWithOAC bucket in
  distribution <- declare h "CloudFront"
    (Distribution
       {| defaultBehavior :=
            {| origin := requestHandlerOrigin; options := requestHandlerBehavior |};
          domainNames :=
            (if Js.truthy (Js.ofString siteDomainName)
             then Some [Js.template siteDomainName] else None);
          distributionCertificate := certificate;
          enableIpv6 := true;
          minimumProtocolVersion := TLS_V1_2_2021;
          httpVersion := HTTP2_AND_3;
          priceClass := PRICE_CLASS_100 |}
       []) ;;
  directories <- getDirectoriesOrThrow h (staticDirectory h) ;;
  when (Z.of_nat (length directories) >? maxBehaviors)
       (throw (JsError (quotaMessage h maxBehaviors))) ;;
  forOf directories
        (fun directory =>
           addBehavior distribution ("/" ++ directory ++ "/*") assetOrigin
                       assetBehaviorOptions) ;;
  declare h "DeployStaticAssets"
    (BucketDeployment
       {| sources := [staticDirectory h];
          destinationBucket := bucket;
          deploymentDistribution := distribution;
          distributionPaths := ["/*"];
          prune := true;
          cacheControl := [maxAge 365; sMaxAge 365] |}) ;;
  (* [if (hostedZone)]: a hosted zone is an object, truthy whenever present *)
  (match hostedZone with
   | Some z =>
       declare h "AliasRecord"
         (ARecord {| zone := z;
                     target := CloudFrontTarget distribution;
                     recordName := match subDomain with Some s => s | None => "" end |}) ;;
       ret tt
   | None => ret tt
   end) ;;
  declare h "DistributionUrlParameter"
    (StringParameter
       {| parameterName := distributionUrlParameterName h;
          stringValue := publishedDomain h siteDomainName distribution;
          tier := STANDARD |}) ;;
  declare h "CloudFrontURL"
    (CfnOutput {| value := "https://" ++ publishedDomain h siteDomainName distribution |}) ;;
  declare h "CloudFrontID"
    (CfnOutput {| value := distributionId h distribution |}) ;;
  ret tt.

(** [new ReactServerStack(scope, id, props)]: [super] yields a stack without
    children, on which the constructor body then runs.  The result is the
    tree as the constructor left it, and whether it returned or threw. *)
Definition ReactServerStack (h : Host) (props : ReactServerStackProps)
    : Tree * Outcome unit :=
  constructor h props [].

(** ** Reading a construct tree *)

Definition behaviorsOfConstruct (c : Construct) : list (string * Behavior) :=
  match c with
  | Distribution _ bs => bs
  | _ => []
  end.

(** The routing behaviours added to the distributions of the tree. *)
Definition addedBehaviors (t : Tree) : list (string * Behavior) :=
  flat_map (fun entry => behaviorsOfConstruct (snd entry)) t.

Definition distributions (t : Tree) : list (string * DistributionProps) :=
  flat_map (fun entry => match snd entry with
                         | Distribution p _ => [(fst entry, p)]
                         | _ => []
                         end) t.

Definition bucketDeployments (t : Tree) : list (string * BucketDeploymentProps) :=
  flat_map (fun entry => match snd entry with
                         | BucketDeployment p => [(fst entry, p)]
                         | _ => []
                         end) t.

Definition aliasRecords (t : Tree) : list (string * ARecordProps) :=
  flat_map (fun entry => match snd entry with
                         | ARecord p => [(fst entry, p)]
                         | _ => []
                         end) t.

Definition parameters (t : Tree) : list (string * StringParameterProps) :=
  flat_map (fun entry => match snd entry with
                         | StringParameter p => [(fst entry, p)]
                         | _ => []
                         end) t.

Definition outputs (t : Tree) : list (string * CfnOutputProps) :=
  flat_map (fun entry => match snd entry with
                         | CfnOutput p => [(fst entry, p)]
                         | _ => []
                         end) t.

Definition ids (t : Tree) : list string := map fst t.

(** The behaviour the loop adds for one directory. *)
Definition assetBehavior (directory : string) : string * Behavior :=
  ("/" ++ directory ++ "/*",
   {| origin := S3BucketOriginWithOAC "StaticAssetsBucket";
      options := assetBehaviorOptions |}).

Definition threw {A : Type} (o : Outcome A) : bool :=
  match o with
  | Thrown _ => true
  | Returned _ => false
  end.

(** A properties object with all five fields given explicitly. *)
Definition stackProps (cert : option CertificateProp) (z : option IHostedZone)
    (sub dom : option string) (quota : option Z) : ReactServerStackProps :=
  {| customStackProps :=
       Some {| certificate := cert; hostedZone := z; subDomain := sub;
               domainName := dom; maxBehaviors := quota |} |}.

(** ** What the module has declared at the places the constructor can stop

    These are not part of the embedding: [run_shape] below proves that the
    children the module itself has declared ([own]) are these, or a prefix
    of these when a library constructor stops the run. *)

(** After line 134: bucket, function, HTTP API and distribution, the
    distribution holding the behaviours [bs]. *)
Definition declaredFirst (h : Host) (props : ReactServerStackProps)
    (bs : list (string * Behavior)) : Tree :=
  [ ("StaticAssetsBucket",
     Bucket {| removalPolicy := DESTROY; autoDeleteObjects := true |});
    ("RequestHandler",
     LambdaFunction
       {| runtime := NODEJS_20_X;
          handler := "index.handler";
          code := join h (awsOutputDirectory h) "functions/index.func";
          environment := [("NODE_ENV", "production")];
          architecture := ARM_64;
          memorySize := 256;
          timeout := 10;
          logRetention := THREE_DAYS;
          tracing := ACTIVE |});
    ("WebsiteApi",
     HttpApi {| defaultIntegration :=
                  {| integrationId := "RequestHandlerIntegration";
                     integrationHandler := "RequestHandler";
                     payloadFormatVersion := VERSION_2_0 |} |});
    ("CloudFront",
     Distribution
       {| defaultBehavior :=
            {| origin := HttpOrigin (httpApiId h "WebsiteApi" ++ ".execute-api."
                                     ++ region h ++ "." ++ urlSuffix h);
               options := requestHandlerBehavior |};
          domainNames :=
            match siteDomainName props with
            | Some d => Some [d]
            | None => None
            end;
          distributionCertificate := certificateOf props;
          enableIpv6 := true;
          minimumProtocolVersion := TLS_V1_2_2021;
          httpVersion := HTTP2_AND_3;
          priceClass := PRICE_CLASS_100 |}
       bs) ].

(** The host name the parameter and the URL output publish. *)
Definition resultingDomain (h : Host) (props : ReactServerStackProps) : string :=
  match siteDomainName props with
  | Some d => d
  | None => distributionDomainName h "CloudFront"
  end.

(** From line 160 on: deployment, optional alias record, parameter, outputs. *)
Definition declaredLast (h : Host) (props : ReactServerStackProps) : Tree :=
  ([ ("DeployStaticAssets",
      BucketDeployment
        {| sources := [staticDirectory h];
           destinationBucket := "StaticAssetsBucket";
           deploymentDistribution := "CloudFront";
           distributionPaths := ["/*"];
           prune := true;
           cacheControl := [maxAge 365; sMaxAge 365] |}) ]
   ++ match optField hostedZone props with
      | Some z =>
          [ ("AliasRecord",
             ARecord {| zone := z;
                        target := CloudFrontTarget "CloudFront";
                        recordName := match optField subDomain props with
                                      | Some s => s
                                      | None => ""
                                      end |}) ]
      | None => []
      end
   ++ [ ("DistributionUrlParameter",
         StringParameter {| parameterName := distributionUrlParameterName h;
                            stringValue := resultingDomain h props;
                            tier := STANDARD |});
        ("CloudFrontURL",
         CfnOutput {| value := "https://" ++ resultingDomain h props |});
        ("CloudFrontID",
         CfnOutput {| value := distributionId h "CloudFront" |}) ])%list.

(** ** What the module itself declared, and how a run ended *)

Definition isOwn (c : Construct) : bool :=
  match c with
  | FrameworkNode => false
  | _ => true
  end.

(** The children of the stack that the module's own [new] expressions
    declared, the library's nodes left out. *)
Definition own (t : Tree) : Tree := filter (fun entry => isOwn (snd entry)) t.

(** The errors of the library's constructors: a constructor that throws on
    its properties, and the refusal of a second child of the same id. *)
Definition frameworkError (e : Error) : bool :=
  match e with
  | FrameworkError _ _ | DuplicateId _ => true
  | JsError _ | FsError _ => false
  end.

(** Whether the run ended in an error of a library constructor. *)
Definition stoppedByFramework {A : Type} (o : Outcome A) : bool :=
  match o with
  | Thrown e => frameworkError e
  | Returned _ => false
  end.

(** The path the file-system error of [getDirectories] names, if a call
    fails: the directory when it cannot be listed, else the first listed
    entry on which [statSync] fails. *)
Fixpoint firstStatFailure (h : Host) (source : string) (names : list string)
    : option string :=
  match names with
  | [] => None
  | name :: rest =>
      match statIsDirectory h (join h source name) with
      | Some _ => firstStatFailure h source rest
      | None => Some (join h source name)
      end
  end.

Definition failingPath (h : Host) (source : string) : option string :=
  match readdirSync h source with
  | Some names => firstStatFailure h source names
  | None => Some source
  end.

(** The five ways a run of the constructor can end, with what the module
    has declared by then.  Proved of every run below ([run_shape]). *)
Inductive RunShape (h : Host) (props : ReactServerStackProps)
    : Tree -> Outcome unit -> Prop :=
| StoppedInFirst (t : Tree) (e : Error) (k : nat) :
    frameworkError e = true ->
    (k < 4)%nat ->
    own t = firstn k (declaredFirst h props []) ->
    RunShape h props t (Thrown e)
| ListingFailed (t : Tree) (path : string) :
    cfS3directories h = None ->
    failingPath h (staticDirectory h) = Some path ->
    own t = declaredFirst h props [] ->
    RunShape h props t (Thrown (FsError path))
| QuotaExceeded (t : Tree) (dirs : list string) :
    cfS3directories h = Some dirs ->
    Z.of_nat (length dirs) > maxBehaviorsOf props ->
    own t = declaredFirst h props [] ->
    RunShape h props t (Thrown (JsError (quotaMessage h (maxBehaviorsOf props))))
| StoppedInLast (t : Tree) (e : Error) (k : nat) (dirs : list string) :
    cfS3directories h = Some dirs ->
    Z.of_nat (length dirs) <= maxBehaviorsOf props ->
    frameworkError e = true ->
    (k < length (declaredLast h props))%nat ->
    own t = (declaredFirst h props (map assetBehavior dirs)
             ++ firstn k (declaredLast h props))%list ->
    RunShape h props t (Thrown e)
| Completed (t : Tree) (dirs : list string) :
    cfS3directories h = Some dirs ->
    Z.of_nat (length dirs) <= maxBehaviorsOf props ->
    own t = (declaredFirst h props (map assetBehavior dirs) ++ declaredLast h props)%list ->
    RunShape h props t (Returned tt).




(** [statSync(join(source, name)).isDirectory()] read as the predicate the
    filter of [getDirectories] applies, for stating what the filter keeps. *)
Definition keptByFilter (h : Host) (source : string) (name : string) : bool :=
  match statIsDirectory h (join h source name) with
  | Some true => true
  | _ => false
  end.

(** Line 52 read with the coalescing grouped first,
    [(subDomain?.length ?? 0) > 0], for comparison with the expression as
    it parses ([siteDomainNameOf]). *)
Definition siteDomainNameParenthesised (subDomain domainName : option string)
    : option string :=
  if Js.truthy (Js.ofString domainName)
  then Some ((if match Js.coalesce (Js.optLength subDomain) (Js.Number 0) with
                 | Js.Number n => n >? 0
                 | _ => false
                 end
              then Js.template subDomain ++ "."
              else "")
             ++ Js.template domainName)
  else None.

(** ** Sample inputs *)

Module Sample.

(** The stack-level children the library adds for the constructs of this
    stack: the provider that empties the bucket, the log-retention
    handler of the function, the handler of the bucket deployment and the
    hosted-zone mapping of the CloudFront alias target. *)
Definition children (id : string) (c : Construct) : list string :=
  match c with
  | Bucket p =>
      if autoDeleteObjects p
      then ["Custom::S3AutoDeleteObjectsCustomResourceProvider"] else []
  | LambdaFunction _ => ["LogRetentionaae0aa3c5b4d4f87b02d85b201efdd8a"]
  | BucketDeployment _ => ["Custom::CDKBucketDeployment8693BB64968944B69AAFB0CC9EB8756C"]
  | ARecord _ => ["AWSCloudFrontPartitionHostedZoneIdMap"]
  | _ => []
  end.

Fixpoint dropTrailingZeros (s : string) : string :=
  match s with
  | "" => ""
  | String c rest =>
      let rest' := dropTrailingZeros rest in
      if (rest' =? "")%string && (c =? "0")%char then "" else String c rest'
  end.

(** Exponent notation from the decimal digits; it is what JavaScript
    prints for the large integers whose digits, trailing zeros apart, are
    at most seventeen (1e21 and the like). *)
Definition exponentNotation (n : Z) : string :=
  let digits := NilZero.string_of_uint (N.to_uint (Z.abs_N n)) in
  let exponent := NilZero.string_of_uint (Nat.to_uint (String.length digits - 1)) in
  (if n <? 0 then "-" else "")
  ++ match dropTrailingZeros digits with
     | "" => "0"
     | String d "" => String d ""
     | String d rest => String d ("." ++ rest)
     end
  ++ "e+" ++ exponent.

(** A host over a given file system and library validation. *)
Definition hostOf (listing : string -> option (list string))
    (stat : string -> option bool)
    (rejects : string -> Construct -> option Rejection) : Host :=
  {| dirname := "/app/cdk/lib";
     join := fun a b => a ++ "/" ++ b;
     readdirSync := listing;
     statIsDirectory := stat;
     stackName := "ReactServer";
     region := "eu-central-1";
     urlSuffix := "amazonaws.com";
     httpApiId := fun r => "${" ++ r ++ ".ApiId}";
     distributionDomainName := fun r => "${" ++ r ++ ".DomainName}";
     distributionId := fun r => "${" ++ r ++ ".Id}";
     numberToString := exponentNotation;
     frameworkRejects := rejects;
     frameworkChildren := children |}.

Definition staticPath : string :=
  "/app/cdk/lib/../../.aws-react-server/output/static".

Definition listingOf (entries : list (string * bool)) : string -> option (list string) :=
  fun _ => Some (map fst entries).

Definition statOf (entries : list (string * bool)) : string -> option bool :=
  fun p => Some (existsb (fun e => snd e && (p =? staticPath ++ "/" ++ fst e)%string) entries).

(** A host whose static directory holds the named entries; an entry is a
    directory when flagged so.  The library accepts every declaration. *)
Definition host (entries : list (string * bool)) : Host :=
  hostOf (listingOf entries) (statOf entries) (fun _ _ => None).

Definition threeEntries : list (string * bool) :=
  [("assets", true); ("index.html", false); ("client", true)].

Definition bare : ReactServerStackProps := stackProps None None None None None.

(** No properties object at all. *)
Definition absent : ReactServerStackProps := {| customStackProps := None |}.

Definition quota (n : Z) : ReactServerStackProps :=
  stackProps None None None None (Some n).

(** Twenty-six directories, named "0" to "25". *)
Definition manyEntries : list (string * bool) :=
  map (fun n => (NilZero.string_of_uint (Nat.to_uint n), true)) (seq 0 26).

Definition zoneExample : IHostedZone :=
  {| hostedZoneId := "Z123"; zoneName := "example.com" |}.

End Sample.

(** ** Further sample inputs *)

Module Sample2.

(** A host on which the static directory cannot be listed. *)
Definition unreadableHost : Host :=
  Sample.hostOf (fun _ => None) (fun _ => None) (fun _ _ => None).

(** A host on which the listing succeeds and [statSync] fails on the entry
    "gone" (removed between the two calls, say). *)
Definition racyHost : Host :=
  Sample.hostOf
    (fun _ => Some ["assets"; "gone"])
    (fun p => if (p =? Sample.staticPath ++ "/gone")%string then None else Some true)
    (fun _ _ => None).

Definition certificateExample : ICertificate :=
  {| certificateArn := "arn:aws:acm:us-east-1:123456789012:certificate/abc" |}.

Definition certificateElsewhere : ICertificate :=
  {| certificateArn := "arn:aws:acm:eu-west-1:123456789012:certificate/abc" |}.

(** The library's distribution refuses a certificate outside us-east-1;
    the node it had registered stays in the stack. *)
Definition rejectsForeignCertificate (id : string) (c : Construct) : option Rejection :=
  match c with
  | Distribution p _ =>
      match distributionCertificate p with
      | Some cert =>
          if String.prefix "arn:aws:acm:us-east-1:" (certificateArn cert) then None
          else Some {| rejectionMessage :=
                         "Distribution certificates must be in the us-east-1 region";
                       leftBehind := [id] |}
      | None => None
      end
  | _ => None
  end.

(** A host whose library checks the region of the certificate. *)
Definition strictHost : Host :=
  Sample.hostOf (Sample.listingOf Sample.threeEntries) (Sample.statOf Sample.threeEntries)
                rejectsForeignCertificate.

(** The library's function refuses a code directory that does not exist. *)
Definition rejectsMissingCode (id : string) (c : Construct) : option Rejection :=
  match c with
  | LambdaFunction p =>
      Some {| rejectionMessage := "Cannot find asset at " ++ code p;
              leftBehind := [id] |}
  | _ => None
  end.

(** A host on which the function code has not been built. *)
Definition unbuiltHost : Host :=
  Sample.hostOf (Sample.listingOf Sample.threeEntries) (Sample.statOf Sample.threeEntries)
                rejectsMissingCode.

End Sample2.

(** ** Running the constructor *)

Lemma siteDomainName_truthy (props : ReactServerStackProps) :
  Js.truthy (Js.ofString (siteDomainName props)) =
  match siteDomainName props with Some _ => true | None => false end.
Proof.
  unfold siteDomainName, siteDomainNameOf.
  destruct (optField domainName props) as [d|]; cbn; [|reflexivity].
  destruct d as [|a d]; cbn; [reflexivity|].
  destruct (Js.truthy _); [|reflexivity].
  destruct (Js.template (optField subDomain props)); reflexivity.
Qed.

Lemma publishedDomain_resulting (h : Host) (props : ReactServerStackProps) :
  publishedDomain h (siteDomainName props) "CloudFront" = resultingDomain h props.
Proof.
  unfold publishedDomain, resultingDomain.
  rewrite siteDomainName_truthy.
  destruct (siteDomainName props); reflexivity.
Qed.

Lemma domainNames_site (props : ReactServerStackProps) :
  (if Js.truthy (Js.ofString (siteDomainName props))
   then Some [Js.template (siteDomainName props)] else None) =
  match siteDomainName props with Some d => Some [d] | None => None end.
Proof.
  rewrite siteDomainName_truthy.
  destruct (siteDomainName props); reflexivity.
Qed.

(** *** The monad *)

Lemma bind_returned {A B : Type} (m : M A) (k : A -> M B) (t t' : Tree) (a : A) :
  m t = (t', Returned a) -> bind m k t = k a t'.
Proof. intros Hm. unfold bind. rewrite Hm. reflexivity. Qed.

Lemma bind_thrown {A B : Type} (m : M A) (k : A -> M B) (t t' : Tree) (e : Error) :
  m t = (t', Thrown e) -> bind m k t = (t', Thrown e).
Proof. intros Hm. unfold bind. rewrite Hm. reflexivity. Qed.

Lemma bind_assoc {A B C : Type} (m : M A) (f : A -> M B) (g : B -> M C) (t : Tree) :
  bind (bind m f) g t = bind m (fun a => bind (f a) g) t.
Proof. unfold bind. destruct (m t) as [t' [a|e]]; reflexivity. Qed.

(** *** The module's own children *)

Lemma own_app (t1 t2 : Tree) : own (t1 ++ t2)%list = (own t1 ++ own t2)%list.
Proof. apply filter_app. Qed.

Lemma own_addSingletons (ids : list string) :
  forall t, own (addSingletons ids t) = own t.
Proof.
  induction ids as [|id ids IH]; intros t; cbn [addSingletons]; [reflexivity|].
  rewrite IH. destruct (hasChild id t); [reflexivity|].
  rewrite own_app. cbn. apply app_nil_r.
Qed.

Lemma own_In (t : Tree) (entry : string * Construct) : In entry (own t) -> In entry t.
Proof. intros Hin. apply filter_In in Hin. apply Hin. Qed.

Lemma own_map (f : string * Construct -> string * Construct) (t : Tree) :
  (forall entry, isOwn (snd (f entry)) = isOwn (snd entry)) ->
  own (map f t) = map f (own t).
Proof.
  intros Hf. induction t as [|entry t IH]; [reflexivity|].
  cbn [map own filter]. rewrite Hf. fold (own (map f t)) (own t). rewrite IH.
  destruct (isOwn (snd entry)); reflexivity.
Qed.

(** What a reading of the tree that skips the library's nodes sees. *)
Lemma flat_map_own {B : Type} (f : string * Construct -> list B) (t : Tree) :
  (forall id, f (id, FrameworkNode) = []) ->
  flat_map f (own t) = flat_map f t.
Proof.
  intros Hf. induction t as [|[id c] t IH]; [reflexivity|].
  cbn [own filter flat_map snd]. fold (own t).
  destruct c; cbn [isOwn flat_map]; rewrite IH; try reflexivity.
  rewrite Hf. reflexivity.
Qed.

Lemma addedBehaviors_own (t : Tree) : addedBehaviors (own t) = addedBehaviors t.
Proof. apply flat_map_own. reflexivity. Qed.

Lemma distributions_own (t : Tree) : distributions (own t) = distributions t.
Proof. apply flat_map_own. reflexivity. Qed.

Lemma bucketDeployments_own (t : Tree) : bucketDeployments (own t) = bucketDeployments t.
Proof. apply flat_map_own. reflexivity. Qed.

Lemma aliasRecords_own (t : Tree) : aliasRecords (own t) = aliasRecords t.
Proof. apply flat_map_own. reflexivity. Qed.

Lemma parameters_own (t : Tree) : parameters (own t) = parameters t.
Proof. apply flat_map_own. reflexivity. Qed.

Lemma outputs_own (t : Tree) : outputs (own t) = outputs t.
Proof. apply flat_map_own. reflexivity. Qed.

(** One declaration: either a library constructor stops the run, and the
    module's children are as before, or the construct is the module's next
    child. *)
Lemma declare_step (h : Host) (id : string) (c : Construct) (t L : Tree) :
  isOwn c = true ->
  own t = L ->
  (exists e t',
      declare h id c t = (t', Thrown e) /\ frameworkError e = true /\ own t' = L) \/
  (exists t',
      declare h id c t = (t', Returned id) /\ own t' = (L ++ [(id, c)])%list).
Proof.
  intros Hc Hown. unfold declare.
  destruct (hasChild id t).
  - left. exists (DuplicateId id), t. auto.
  - destruct (frameworkRejects h id c) as [r|].
    + left. eexists. eexists. split; [reflexivity|]. split; [reflexivity|].
      rewrite own_addSingletons. exact Hown.
    + right. eexists. split; [reflexivity|].
      rewrite own_addSingletons, own_app, Hown. cbn. rewrite Hc. reflexivity.
Qed.

(** *** The listing as the constructor runs it *)

Lemma filterDirectoriesOrThrow_Some (h : Host) (source : string) (names : list string) :
  forall dirs t,
    filterDirectories h source names = Some dirs ->
    filterDirectoriesOrThrow h source names t = (t, Returned dirs).
Proof.
  induction names as [|name rest IH]; intros dirs t Hf; cbn in Hf |- *.
  - injection Hf as <-. reflexivity.
  - unfold bind, statSyncIsDirectory.
    destruct (statIsDirectory h (join h source name)) as [isDir|]; [|discriminate].
    destruct (filterDirectories h source rest) as [dirs'|]; [|discriminate].
    cbn. rewrite (IH dirs' t eq_refl). injection Hf as <-. reflexivity.
Qed.

Lemma filterDirectoriesOrThrow_None (h : Host) (source : string) (names : list string) :
  forall t,
    filterDirectories h source names = None ->
    exists path,
      firstStatFailure h source names = Some path /\
      filterDirectoriesOrThrow h source names t = (t, Thrown (FsError path)).
Proof.
  induction names as [|name rest IH]; intros t Hf; cbn in Hf |- *; [discriminate|].
  unfold bind, statSyncIsDirectory.
  destruct (statIsDirectory h (join h source name)) as [isDir|].
  - destruct (filterDirectories h source rest) as [dirs'|] eqn:Hrest; [discriminate|].
    destruct (IH t eq_refl) as (path & Hpath & Hrun).
    exists path. split; [exact Hpath|]. cbn. rewrite Hrun. reflexivity.
  - eexists. split; reflexivity.
Qed.

Lemma getDirectoriesOrThrow_Some (h : Host) (source : string) (dirs : list string)
    (t : Tree) :
  getDirectories h source = Some dirs ->
  getDirectoriesOrThrow h source t = (t, Returned dirs).
Proof.
  unfold getDirectories, getDirectoriesOrThrow, readdirSyncOrThrow. intros Hg.
  destruct (readdirSync h source) as [names|]; [|discriminate].
  unfold bind at 1. cbn. apply filterDirectoriesOrThrow_Some. exact Hg.
Qed.

Lemma getDirectoriesOrThrow_None (h : Host) (source : string) (t : Tree) :
  getDirectories h source = None ->
  exists path,
    failingPath h source = Some path /\
    getDirectoriesOrThrow h source t = (t, Thrown (FsError path)).
Proof.
  unfold getDirectories, getDirectoriesOrThrow, readdirSyncOrThrow, failingPath. intros Hg.
  destruct (readdirSync h source) as [names|].
  - destruct (filterDirectoriesOrThrow_None h source names t Hg) as (path & Hpath & Hrun).
    exists path. split; [exact Hpath|]. unfold bind at 1. cbn. exact Hrun.
  - eexists. split; reflexivity.
Qed.

(** *** The loop of line 151 *)

Lemma forOf_addBehavior_own (h : Host) (props : ReactServerStackProps)
    (dirs : list string) :
  forall (t : Tree) (bs : list (string * Behavior)),
    own t = declaredFirst h props bs ->
    exists t',
      forOf dirs
            (fun directory =>
               addBehavior "CloudFront" ("/" ++ directory ++ "/*")
                           (S3BucketOriginWithOAC "StaticAssetsBucket")
                           assetBehaviorOptions) t
      = (t', Returned tt) /\
      own t' = declaredFirst h props (bs ++ map assetBehavior dirs)%list.
Proof.
  induction dirs as [|d dirs IH]; intros t bs Hown.
  - exists t. split; [reflexivity|]. cbn. rewrite app_nil_r. exact Hown.
  - cbn [forOf]. unfold bind at 1. cbn [addBehavior].
    match goal with |- context [forOf dirs _ (map ?f t)] =>
      destruct (IH (map f t) (bs ++ [assetBehavior d])%list) as (t' & Hrun & Hown')
    end.
    + rewrite own_map.
      * rewrite Hown. reflexivity.
      * intros [id c]. cbn [fst snd]. destruct (id =? "CloudFront")%string; [|reflexivity].
        destruct c; reflexivity.
    + exists t'. split; [exact Hrun|]. rewrite Hown', <- app_assoc. reflexivity.
Qed.

(** *** Every run has one of the five shapes *)

Lemma bind_throw {A B : Type} (e : Error) (k : A -> M B) (t : Tree) :
  bind (throw e) k t = (t, Thrown e).
Proof. reflexivity. Qed.

Lemma bind_ret {A B : Type} (a : A) (k : A -> M B) (t : Tree) :
  bind (ret a) k t = k a t.
Proof. reflexivity. Qed.

Lemma length_declaredLast (h : Host) (props : ReactServerStackProps) :
  length (declaredLast h props) =
  match optField hostedZone props with Some _ => 5%nat | None => 4%nat end.
Proof. unfold declaredLast. destruct (optField hostedZone props); reflexivity. Qed.

Ltac step_declare :=
  match goal with
  | Hown : own ?t = ?L |- context [bind (declare ?h ?id ?c) ?k ?t] =>
      let e := fresh "e" in
      let t' := fresh "t" in
      let Hd := fresh "Hd" in
      let Hfe := fresh "Hfe" in
      let Hown' := fresh "Hown" in
      destruct (declare_step h id c t L eq_refl Hown)
        as [(e & t' & Hd & Hfe & Hown') | (t' & Hd & Hown')];
      [ rewrite (bind_thrown _ _ _ _ _ Hd); cbn [fst snd]
      | rewrite (bind_returned _ _ _ _ _ Hd); cbv beta ];
      clear Hd Hown; rename Hown' into Hown
  end.

Ltac stopped_in_first n :=
  match goal with
  | Hfe : frameworkError ?e = true, Hown : own ?t = _ |- RunShape ?h ?props ?t (Thrown ?e) =>
      apply (StoppedInFirst h props t e n Hfe); [lia | rewrite Hown; reflexivity]
  end.

Ltac stopped_in_last n Hfs Hle Hz :=
  match goal with
  | Hfe : frameworkError ?e = true, Hown : own ?t = _ |- RunShape ?h ?props ?t (Thrown ?e) =>
      eapply (StoppedInLast h props t e n _ Hfs Hle Hfe);
      [ rewrite length_declaredLast, Hz; lia
      | rewrite Hown; unfold declaredLast; rewrite Hz;
        rewrite ?publishedDomain_resulting; cbn [firstn app];
        rewrite <- ?app_assoc; reflexivity ]
  end.

Lemma run_shape (h : Host) (props : ReactServerStackProps) :
  RunShape h props (fst (ReactServerStack h props)) (snd (ReactServerStack h props)).
Proof.
  unfold ReactServerStack, constructor. cbv zeta.
  assert (Hown : own [] = []) by reflexivity.
  step_declare; [stopped_in_first 0%nat|].
  step_declare; [stopped_in_first 1%nat|].
  step_declare; [stopped_in_first 2%nat|].
  step_declare; [stopped_in_first 3%nat|].
  match goal with
  | Hown : own ?t = _ |- _ =>
      assert (Hfirst : own t = declaredFirst h props [])
        by (rewrite Hown, domainNames_site; reflexivity);
      clear Hown
  end.
  destruct (cfS3directories h) as [dirs|] eqn:Hfs.
  - rewrite (bind_returned _ _ _ _ _ (getDirectoriesOrThrow_Some h _ dirs _ Hfs)). cbv beta.
    unfold when.
    destruct (Z.gtb_spec (Z.of_nat (length dirs)) (maxBehaviorsOf props)) as [Hgt|Hle].
    + rewrite bind_throw. cbn [fst snd].
      apply (QuotaExceeded h props _ dirs Hfs); [lia | exact Hfirst].
    + rewrite bind_ret.
      destruct (forOf_addBehavior_own h props dirs _ [] Hfirst) as (t3 & Hloop & Hown).
      cbn [app] in Hown.
      rewrite (bind_returned _ _ _ _ _ Hloop). cbv beta.
      destruct (optField hostedZone props) as [z|] eqn:Hz.
      * step_declare; [stopped_in_last 0%nat Hfs Hle Hz|].
        rewrite bind_assoc.
        step_declare; [stopped_in_last 1%nat Hfs Hle Hz|].
        rewrite bind_ret.
        step_declare; [stopped_in_last 2%nat Hfs Hle Hz|].
        step_declare; [stopped_in_last 3%nat Hfs Hle Hz|].
        step_declare; [stopped_in_last 4%nat Hfs Hle Hz|].
        cbn [ret fst snd].
        apply (Completed h props _ dirs Hfs Hle).
        rewrite Hown. unfold declaredLast. rewrite Hz.
        rewrite ?publishedDomain_resulting. cbn [app].
        rewrite <- ?app_assoc. reflexivity.
      * step_declare; [stopped_in_last 0%nat Hfs Hle Hz|].
        rewrite bind_ret.
        step_declare; [stopped_in_last 1%nat Hfs Hle Hz|].
        step_declare; [stopped_in_last 2%nat Hfs Hle Hz|].
        step_declare; [stopped_in_last 3%nat Hfs Hle Hz|].
        cbn [ret fst snd].
        apply (Completed h props _ dirs Hfs Hle).
        rewrite Hown. unfold declaredLast. rewrite Hz.
        rewrite ?publishedDomain_resulting. cbn [app].
        rewrite <- ?app_assoc. reflexivity.
  - match goal with
    | Hfirst : own ?t = _ |- _ =>
        destruct (getDirectoriesOrThrow_None h (staticDirectory h) t Hfs)
          as (path & Hpath & Hrun)
    end.
    rewrite (bind_thrown _ _ _ _ _ Hrun). cbn [fst snd].
    apply (ListingFailed h props _ path Hfs Hpath Hfirst).
Qed.

Ltac run_cases h props :=
  let Hs := fresh "Hshape" in
  let r := fresh "r" in
  let Hr := fresh "Hr" in
  pose proof (run_shape h props) as Hs;
  remember (ReactServerStack h props) as r eqn:Hr;
  destruct r as [? ?]; cbn [fst snd] in *;
  inversion Hs; subst; clear Hs Hr;
  repeat match goal with
         | H : Thrown _ = Thrown _ |- _ => injection H as H; subst
         | H : FsError _ = FsError _ |- _ => injection H as H; subst
         end.

Ltac same_listing :=
  match goal with
  | H1 : cfS3directories ?h = Some ?d1, H2 : cfS3directories ?h = Some ?d2 |- _ =>
      assert (d1 = d2) by congruence; subst; clear H1
  | H1 : cfS3directories ?h = Some _, H2 : cfS3directories ?h = None |- _ =>
      congruence
  end.

Ltac exists_dirs :=
  match goal with H : cfS3directories _ = Some ?d |- _ => exists d end.

Ltac exists_path :=
  match goal with H : failingPath _ _ = Some ?p |- _ => exists p end.

Lemma observers_first (h : Host) (props : ReactServerStackProps)
    (bs : list (string * Behavior)) :
  addedBehaviors (declaredFirst h props bs) = bs /\
  bucketDeployments (declaredFirst h props bs) = [] /\
  aliasRecords (declaredFirst h props bs) = [] /\
  parameters (declaredFirst h props bs) = [] /\
  outputs (declaredFirst h props bs) = [].
Proof.
  cbn. rewrite app_nil_r. repeat split; reflexivity.
Qed.

Lemma observers_first_prefix (h : Host) (props : ReactServerStackProps) (k : nat) :
  addedBehaviors (firstn k (declaredFirst h props [])) = [] /\
  bucketDeployments (firstn k (declaredFirst h props [])) = [] /\
  aliasRecords (firstn k (declaredFirst h props [])) = [] /\
  parameters (firstn k (declaredFirst h props [])) = [] /\
  outputs (firstn k (declaredFirst h props [])) = [].
Proof.
  destruct k as [|[|[|[|[|k]]]]]; cbn; repeat split; reflexivity.
Qed.

Lemma addedBehaviors_app (t1 t2 : Tree) :
  addedBehaviors (t1 ++ t2)%list = (addedBehaviors t1 ++ addedBehaviors t2)%list.
Proof. apply flat_map_app. Qed.

Lemma addedBehaviors_last_prefix (h : Host) (props : ReactServerStackProps) (k : nat) :
  addedBehaviors (firstn k (declaredLast h props)) = [].
Proof.
  unfold declaredLast.
  destruct (optField hostedZone props); destruct k as [|[|[|[|[|[|k]]]]]]; reflexivity.
Qed.

Lemma addedBehaviors_last (h : Host) (props : ReactServerStackProps) :
  addedBehaviors (declaredLast h props) = [].
Proof.
  unfold declaredLast. destruct (optField hostedZone props); reflexivity.
Qed.

Lemma addedBehaviors_returned (h : Host) (props : ReactServerStackProps)
    (dirs : list string) :
  addedBehaviors (declaredFirst h props (map assetBehavior dirs) ++ declaredLast h props)%list
  = map assetBehavior dirs.
Proof.
  rewrite addedBehaviors_app, addedBehaviors_last, app_nil_r.
  apply observers_first.
Qed.

(** The behaviours of a run: none, or one per directory of a listing
    within the maximum. *)
Lemma addedBehaviors_run (h : Host) (props : ReactServerStackProps) :
  addedBehaviors (fst (ReactServerStack h props)) = [] \/
  exists dirs,
    cfS3directories h = Some dirs /\
    Z.of_nat (length dirs) <= maxBehaviorsOf props /\
    addedBehaviors (fst (ReactServerStack h props)) = map assetBehavior dirs.
Proof.
  run_cases h props; rewrite <- addedBehaviors_own;
    match goal with Hown : own _ = _ |- _ => rewrite Hown end.
  - left. apply observers_first_prefix.
  - left. apply observers_first.
  - left. apply observers_first.
  - right. exists_dirs. rewrite addedBehaviors_app, addedBehaviors_last_prefix, app_nil_r.
    split; [assumption|]. split; [assumption|]. apply observers_first.
  - right. exists_dirs. rewrite addedBehaviors_returned. auto.
Qed.

Lemma returned_inv (h : Host) (props : ReactServerStackProps) :
  snd (ReactServerStack h props) = Returned tt ->
  exists dirs,
    cfS3directories h = Some dirs /\
    Z.of_nat (length dirs) <= maxBehaviorsOf props /\
    own (fst (ReactServerStack h props)) =
    (declaredFirst h props (map assetBehavior dirs) ++ declaredLast h props)%list.
Proof.
  intros Hret. run_cases h props; try congruence.
  exists_dirs. auto.
Qed.

(** A run that no library constructor stopped ends at the listing, at the
    quota check or at the end of the constructor, with the first four
    constructs declared. *)
Lemma not_stopped_inv (h : Host) (props : ReactServerStackProps) :
  stoppedByFramework (snd (ReactServerStack h props)) = false ->
  (exists path,
      cfS3directories h = None /\
      failingPath h (staticDirectory h) = Some path /\
      snd (ReactServerStack h props) = Thrown (FsError path) /\
      own (fst (ReactServerStack h props)) = declaredFirst h props []) \/
  (exists dirs,
      cfS3directories h = Some dirs /\
      Z.of_nat (length dirs) > maxBehaviorsOf props /\
      snd (ReactServerStack h props)
      = Thrown (JsError (quotaMessage h (maxBehaviorsOf props))) /\
      own (fst (ReactServerStack h props)) = declaredFirst h props []) \/
  (exists dirs,
      cfS3directories h = Some dirs /\
      Z.of_nat (length dirs) <= maxBehaviorsOf props /\
      snd (ReactServerStack h props) = Returned tt /\
      own (fst (ReactServerStack h props)) =
      (declaredFirst h props (map assetBehavior dirs) ++ declaredLast h props)%list).
Proof.
  intros Hns. run_cases h props; cbn [stoppedByFramework] in Hns; try congruence.
  - left. exists_path. auto.
  - right. left. exists_dirs. auto.
  - right. right. exists_dirs. auto.
Qed.

(** The distributions of a run: at most the one of id "CloudFront", with
    the domain names and the certificate computed from the properties; it
    is there unless a library constructor stopped the run. *)
Lemma distributions_run (h : Host) (props : ReactServerStackProps) :
  (forall id p,
      In (id, p) (distributions (fst (ReactServerStack h props))) ->
      id = "CloudFront" /\
      domainNames p = match siteDomainName props with
                      | Some d => Some [d]
                      | None => None
                      end /\
      distributionCertificate p = certificateOf props) /\
  (stoppedByFramework (snd (ReactServerStack h props)) = false \/
   snd (ReactServerStack h props) = Returned tt ->
   exists p,
     distributions (fst (ReactServerStack h props)) = [("CloudFront", p)] /\
     domainNames p = match siteDomainName props with
                     | Some d => Some [d]
                     | None => None
                     end /\
     distributionCertificate p = certificateOf props).
Proof.
  run_cases h props; rewrite <- distributions_own;
    match goal with Hown : own _ = _ |- _ => rewrite Hown end.
  - split.
    + intros id p Hin. destruct k as [|[|[|[|[|k]]]]]; cbn in Hin; try contradiction; lia.
    + cbn [stoppedByFramework]. intros [Hns|Hret]; congruence.
  - split.
    + intros id p [Hin|[]]. injection Hin as <- <-. auto.
    + intros _. eexists. split; [reflexivity|]. split; reflexivity.
  - split.
    + intros id p [Hin|[]]. injection Hin as <- <-. auto.
    + intros _. eexists. split; [reflexivity|]. split; reflexivity.
  - split.
    + intros id p Hin. unfold distributions in Hin. rewrite flat_map_app in Hin.
      apply in_app_or in Hin. destruct Hin as [[Hin|[]]|Hin].
      * injection Hin as <- <-. auto.
      * exfalso. unfold declaredLast in Hin.
        destruct (optField hostedZone props); destruct k as [|[|[|[|[|[|k]]]]]];
          cbn in Hin; intuition discriminate.
    + cbn [stoppedByFramework]. intros [Hns|Hret]; congruence.
  - match goal with |- context [declaredFirst h props (map assetBehavior ?d)] =>
      rename d into dirs end.
    assert (Hd : distributions
                   (declaredFirst h props (map assetBehavior dirs) ++ declaredLast h props)%list
                 = [("CloudFront",
                     {| defaultBehavior :=
                          {| origin := HttpOrigin (httpApiId h "WebsiteApi" ++ ".execute-api."
                                                   ++ region h ++ "." ++ urlSuffix h);
                             options := requestHandlerBehavior |};
                        domainNames := match siteDomainName props with
                                       | Some d => Some [d]
                                       | None => None
                                       end;
                        distributionCertificate := certificateOf props;
                        enableIpv6 := true;
                        minimumProtocolVersion := TLS_V1_2_2021;
                        httpVersion := HTTP2_AND_3;
                        priceClass := PRICE_CLASS_100 |})]).
    { unfold declaredLast. destruct (optField hostedZone props); reflexivity. }
    rewrite Hd. split.
    + intros id p [Hin|[]]. injection Hin as <- <-. auto.
    + intros _. eexists. split; [reflexivity|]. split; reflexivity.
Qed.

(** ** The claims *)

(** C1, as stated, fails: with two directories and a quota of one the
    constructor throws the quota error, and at that point the tree is not
    empty; the bucket, the function, the HTTP API and the distribution are
    children of the stack. *)
Lemma quota_error_after_resources_counterexample :
  cfS3directories (Sample.host Sample.threeEntries) = Some ["assets"; "client"] /\
  Z.of_nat (length ["assets"; "client"]) > maxBehaviorsOf (Sample.quota 1) /\
  snd (ReactServerStack (Sample.host Sample.threeEntries) (Sample.quota 1))
  = Thrown (JsError (quotaMessage (Sample.host Sample.threeEntries) 1)) /\
  fst (ReactServerStack (Sample.host Sample.threeEntries) (Sample.quota 1)) <> [] /\
  forallb (fun id => hasChild id (fst (ReactServerStack (Sample.host Sample.threeEntries)
                                                        (Sample.quota 1))))
          ["StaticAssetsBucket"; "RequestHandler"; "WebsiteApi"; "CloudFront"]
  = true.
Proof.
  repeat split; try reflexivity.
  vm_compute. discriminate.
Qed.

(** C1, amended: when the discovered directories outnumber the configured
    maximum, the constructor throws; unless a library constructor has
    thrown before the check is reached, the error is the quota error, and
    when it is raised the bucket, the function, the HTTP API and the
    distribution (without added behaviours) have already been declared. *)
Theorem quota_exceeded_throws_after_first_four
    (h : Host) (props : ReactServerStackProps) (dirs : list string) :
  cfS3directories h = Some dirs ->
  Z.of_nat (length dirs) > maxBehaviorsOf props ->
  threw (snd (ReactServerStack h props)) = true /\
  (stoppedByFramework (snd (ReactServerStack h props)) = false ->
   snd (ReactServerStack h props)
   = Thrown (JsError (quotaMessage h (maxBehaviorsOf props))) /\
   exists b f a d,
     In ("StaticAssetsBucket", Bucket b) (fst (ReactServerStack h props)) /\
     In ("RequestHandler", LambdaFunction f) (fst (ReactServerStack h props)) /\
     In ("WebsiteApi", HttpApi a) (fst (ReactServerStack h props)) /\
     In ("CloudFront", Distribution d []) (fst (ReactServerStack h props))).
Proof.
  intros Hfs Hgt. run_cases h props; try same_listing; try lia;
    (split; [reflexivity|]); cbn [stoppedByFramework]; intros Hns; try congruence.
  split; [reflexivity|].
  do 4 eexists.
  repeat split; apply own_In;
    match goal with Hown : own _ = _ |- _ => rewrite Hown end;
    unfold declaredFirst; cbn [In]; auto 6.
Qed.

Lemma quota_exceeded_throws_after_first_four_witness :
  cfS3directories (Sample.host Sample.threeEntries) = Some ["assets"; "client"] /\
  Z.of_nat (length ["assets"; "client"]) > maxBehaviorsOf (Sample.quota 1) /\
  stoppedByFramework (snd (ReactServerStack (Sample.host Sample.threeEntries)
                                            (Sample.quota 1))) = false /\
  snd (ReactServerStack (Sample.host Sample.threeEntries) (Sample.quota 1))
  = Thrown (JsError (quotaMessage (Sample.host Sample.threeEntries)
                                  (maxBehaviorsOf (Sample.quota 1)))).
Proof.
  split; [reflexivity|]. split; [reflexivity|]. split; [reflexivity|].
  apply (quota_exceeded_throws_after_first_four
           (Sample.host Sample.threeEntries) (Sample.quota 1) ["assets"; "client"]);
    reflexivity.
Defined.

(** C2, as stated, fails: two directories are within the default maximum
    of 25, yet the constructor does not complete, because the library's
    distribution refuses the certificate, which is outside us-east-1. *)
Lemma library_refusal_within_quota_counterexample :
  cfS3directories Sample2.strictHost = Some ["assets"; "client"] /\
  Z.of_nat (length ["assets"; "client"])
  <= maxBehaviorsOf (stackProps (Some (CertificateObject Sample2.certificateElsewhere))
                                None None (Some "example.com") None) /\
  threw (snd (ReactServerStack Sample2.strictHost
                (stackProps (Some (CertificateObject Sample2.certificateElsewhere))
                            None None (Some "example.com") None))) = true /\
  addedBehaviors
    (fst (ReactServerStack Sample2.strictHost
            (stackProps (Some (CertificateObject Sample2.certificateElsewhere))
                        None None (Some "example.com") None))) = [].
Proof.
  split; [reflexivity|]. split; [vm_compute; discriminate|]. split; reflexivity.
Qed.

(** C2, amended: when the discovered directories do not outnumber the
    configured maximum and no library constructor throws, the constructor
    returns, and the behaviours added to the distribution are, in order,
    one per directory, with path pattern "/<directory>/*" and the origin of
    the static-assets bucket, which is declared in the tree. *)
Theorem within_quota_one_behavior_per_directory
    (h : Host) (props : ReactServerStackProps) (dirs : list string) :
  cfS3directories h = Some dirs ->
  Z.of_nat (length dirs) <= maxBehaviorsOf props ->
  stoppedByFramework (snd (ReactServerStack h props)) = false ->
  snd (ReactServerStack h props) = Returned tt /\
  addedBehaviors (fst (ReactServerStack h props)) =
  map (fun directory =>
         ("/" ++ directory ++ "/*",
          {| origin := S3BucketOriginWithOAC "StaticAssetsBucket";
             options := assetBehaviorOptions |})) dirs /\
  length (addedBehaviors (fst (ReactServerStack h props))) = length dirs /\
  exists b, In ("StaticAssetsBucket", Bucket b) (fst (ReactServerStack h props)).
Proof.
  intros Hfs Hle Hns.
  run_cases h props; cbn [stoppedByFramework] in Hns; try same_listing;
    try congruence; try lia.
  match goal with Hown : own _ = _ |- _ => rename Hown into Htree end.
  split; [reflexivity|].
  rewrite <- addedBehaviors_own, Htree, addedBehaviors_returned.
  split; [reflexivity|]. split; [apply length_map|].
  eexists. apply own_In. rewrite Htree. apply in_or_app. left. left. reflexivity.
Qed.

Lemma within_quota_one_behavior_per_directory_witness :
  cfS3directories (Sample.host Sample.threeEntries) = Some ["assets"; "client"] /\
  Z.of_nat (length ["assets"; "client"]) <= maxBehaviorsOf (Sample.quota 2) /\
  stoppedByFramework (snd (ReactServerStack (Sample.host Sample.threeEntries)
                                            (Sample.quota 2))) = false /\
  snd (ReactServerStack (Sample.host Sample.threeEntries) (Sample.quota 2)) = Returned tt /\
  map fst (addedBehaviors (fst (ReactServerStack (Sample.host Sample.threeEntries)
                                                 (Sample.quota 2))))
  = ["/assets/*"; "/client/*"].
Proof.
  split; [reflexivity|]. split; [vm_compute; discriminate|]. split; [reflexivity|].
  destruct (within_quota_one_behavior_per_directory
              (Sample.host Sample.threeEntries) (Sample.quota 2) ["assets"; "client"])
    as (Hret & Hbs & _); [reflexivity | vm_compute; discriminate | reflexivity |].
  split; [exact Hret|]. rewrite Hbs. reflexivity.
Defined.

(** C3, as stated, fails: with two directories and a maximum of two, a
    count equal to the maximum, the constructor throws all the same,
    because the library's function finds no code to package. *)
Lemma throws_at_maximum_counterexample :
  cfS3directories Sample2.unbuiltHost = Some ["assets"; "client"] /\
  Z.of_nat (length ["assets"; "client"]) = maxBehaviorsOf (Sample.quota 2) /\
  ~ Z.of_nat (length ["assets"; "client"]) > maxBehaviorsOf (Sample.quota 2) /\
  threw (snd (ReactServerStack Sample2.unbuiltHost (Sample.quota 2))) = true.
Proof.
  split; [reflexivity|]. split; [reflexivity|]. split; [|reflexivity].
  vm_compute. intros H. discriminate H.
Qed.

(** C3, amended: with the directories discovered, the constructor throws
    whenever their number strictly exceeds the configured maximum; unless
    a library constructor throws, it throws only then, and a number equal
    to the maximum returns; and whenever the constructor returns, the
    number of routing behaviours it has added is at most the maximum. *)
Theorem throws_iff_count_exceeds_maximum
    (h : Host) (props : ReactServerStackProps) (dirs : list string) :
  cfS3directories h = Some dirs ->
  (Z.of_nat (length dirs) > maxBehaviorsOf props ->
   threw (snd (ReactServerStack h props)) = true) /\
  (stoppedByFramework (snd (ReactServerStack h props)) = false ->
   (threw (snd (ReactServerStack h props)) = true
    <-> Z.of_nat (length dirs) > maxBehaviorsOf props) /\
   (Z.of_nat (length dirs) = maxBehaviorsOf props ->
    snd (ReactServerStack h props) = Returned tt)) /\
  (snd (ReactServerStack h props) = Returned tt ->
   Z.of_nat (length (addedBehaviors (fst (ReactServerStack h props))))
   <= maxBehaviorsOf props).
Proof.
  intros Hfs.
  run_cases h props; try same_listing; cbn [threw stoppedByFramework].
  - split; [reflexivity|]. split; [congruence | discriminate].
  - split; [reflexivity|]. split; [|discriminate]. intros _.
    split; [split; [lia | reflexivity] | lia].
  - split; [lia|]. split; [congruence | discriminate].
  - split; [lia|]. split.
    + intros _. split; [split; [discriminate | lia] | reflexivity].
    + intros _.
      match goal with Hown : own _ = _ |- _ =>
        rewrite <- addedBehaviors_own, Hown, addedBehaviors_returned, length_map end.
      assumption.
Qed.

Lemma throws_iff_count_exceeds_maximum_witness :
  cfS3directories (Sample.host Sample.threeEntries) = Some ["assets"; "client"] /\
  stoppedByFramework (snd (ReactServerStack (Sample.host Sample.threeEntries)
                                            (Sample.quota 2))) = false /\
  Z.of_nat (length ["assets"; "client"]) = maxBehaviorsOf (Sample.quota 2) /\
  snd (ReactServerStack (Sample.host Sample.threeEntries) (Sample.quota 2)) = Returned tt.
Proof.
  split; [reflexivity|]. split; [reflexivity|]. split; [reflexivity|].
  apply (throws_iff_count_exceeds_maximum
           (Sample.host Sample.threeEntries) (Sample.quota 2) ["assets"; "client"]);
    reflexivity.
Defined.

(** What a completed declaration holds besides the first four constructs. *)
Lemma completed_readings (h : Host) (props : ReactServerStackProps)
    (bs : list (string * Behavior)) :
  parameters (declaredFirst h props bs ++ declaredLast h props)%list =
  [ ("DistributionUrlParameter",
     {| parameterName := distributionUrlParameterName h;
        stringValue := resultingDomain h props;
        tier := STANDARD |}) ] /\
  outputs (declaredFirst h props bs ++ declaredLast h props)%list =
  [ ("CloudFrontURL", {| value := "https://" ++ resultingDomain h props |});
    ("CloudFrontID", {| value := distributionId h "CloudFront" |}) ] /\
  aliasRecords (declaredFirst h props bs ++ declaredLast h props)%list =
  match optField hostedZone props with
  | Some z =>
      [ ("AliasRecord",
         {| zone := z;
            target := CloudFrontTarget "CloudFront";
            recordName := match optField subDomain props with
                          | Some s => s
                          | None => ""
                          end |}) ]
  | None => []
  end /\
  bucketDeployments (declaredFirst h props bs ++ declaredLast h props)%list =
  [ ("DeployStaticAssets",
     {| sources := [staticDirectory h];
        destinationBucket := "StaticAssetsBucket";
        deploymentDistribution := "CloudFront";
        distributionPaths := ["/*"];
        prune := true;
        cacheControl := [maxAge 365; sMaxAge 365] |}) ].
Proof.
  unfold declaredLast. destruct (optField hostedZone props); cbn; repeat split; reflexivity.
Qed.

Lemma aliasRecords_without_zone (h : Host) (props : ReactServerStackProps)
    (bs : list (string * Behavior)) (k : nat) :
  optField hostedZone props = None ->
  aliasRecords (declaredFirst h props bs ++ firstn k (declaredLast h props))%list = [].
Proof.
  intros Hz. unfold declaredLast. rewrite Hz.
  destruct k as [|[|[|[|[|k]]]]]; reflexivity.
Qed.

(** C4: in a completed declaration for properties without a domain name,
    the persisted parameter holds the distribution's own domain name and
    the URL output is "https://" followed by that domain name. *)
Theorem no_domain_falls_back_to_distribution_domain
    (h : Host) (props : ReactServerStackProps) :
  optField domainName props = None ->
  snd (ReactServerStack h props) = Returned tt ->
  parameters (fst (ReactServerStack h props)) =
  [ ("DistributionUrlParameter",
     {| parameterName := distributionUrlParameterName h;
        stringValue := distributionDomainName h "CloudFront";
        tier := STANDARD |}) ] /\
  In ("CloudFrontURL", {| value := "https://" ++ distributionDomainName h "CloudFront" |})
     (outputs (fst (ReactServerStack h props))).
Proof.
  intros Hdom Hret.
  destruct (returned_inv h props Hret) as (dirs & _ & _ & Htree).
  rewrite <- parameters_own, <- outputs_own, Htree.
  destruct (completed_readings h props (map assetBehavior dirs)) as (Hp & Ho & _).
  rewrite Hp, Ho.
  unfold resultingDomain, siteDomainName, siteDomainNameOf.
  rewrite Hdom. cbn [Js.ofString Js.truthy]. split; [reflexivity | left; reflexivity].
Qed.

Lemma no_domain_falls_back_to_distribution_domain_witness :
  optField domainName Sample.bare = None /\
  snd (ReactServerStack (Sample.host Sample.threeEntries) Sample.bare) = Returned tt /\
  parameters (fst (ReactServerStack (Sample.host Sample.threeEntries) Sample.bare)) =
  [ ("DistributionUrlParameter",
     {| parameterName := "/ReactServer/distribution/url";
        stringValue := "${CloudFront.DomainName}";
        tier := STANDARD |}) ] /\
  In ("CloudFrontURL", {| value := "https://${CloudFront.DomainName}" |})
     (outputs (fst (ReactServerStack (Sample.host Sample.threeEntries) Sample.bare))).
Proof.
  split; [reflexivity|]. split; [reflexivity|].
  apply (no_domain_falls_back_to_distribution_domain
           (Sample.host Sample.threeEntries) Sample.bare); reflexivity.
Defined.

(** C5: without a hosted zone no alias record is declared, whatever the
    outcome; in a completed declaration an alias record is declared if and
    only if a hosted zone is supplied, and it is then the one record
    "AliasRecord" of that zone, targeting the distribution. *)
Theorem alias_record_iff_hosted_zone (h : Host) (props : ReactServerStackProps) :
  (optField hostedZone props = None ->
   aliasRecords (fst (ReactServerStack h props)) = []) /\
  (snd (ReactServerStack h props) = Returned tt ->
   (aliasRecords (fst (ReactServerStack h props)) <> []
    <-> optField hostedZone props <> None) /\
   (forall z, optField hostedZone props = Some z ->
      aliasRecords (fst (ReactServerStack h props)) =
      [ ("AliasRecord",
         {| zone := z;
            target := CloudFrontTarget "CloudFront";
            recordName := match optField subDomain props with
                          | Some s => s
                          | None => ""
                          end |}) ])).
Proof.
  split.
  - intros Hz.
    run_cases h props; rewrite <- aliasRecords_own;
      match goal with Hown : own _ = _ |- _ => rewrite Hown end.
    + apply observers_first_prefix.
    + apply observers_first.
    + apply observers_first.
    + apply aliasRecords_without_zone. exact Hz.
    + rewrite <- (firstn_all (declaredLast h props)).
      apply aliasRecords_without_zone. exact Hz.
  - intros Hret.
    destruct (returned_inv h props Hret) as (dirs & _ & _ & Htree).
    rewrite <- aliasRecords_own, Htree.
    destruct (completed_readings h props (map assetBehavior dirs)) as (_ & _ & Ha & _).
    rewrite Ha.
    destruct (optField hostedZone props) as [z|].
    + split; [split; discriminate|]. intros z' Hz. injection Hz as <-. reflexivity.
    + split; [split; intros H; exfalso; apply H; reflexivity|]. discriminate.
Qed.

Lemma alias_record_iff_hosted_zone_witness :
  snd (ReactServerStack (Sample.host Sample.threeEntries)
         (stackProps None (Some Sample.zoneExample) (Some "www") (Some "example.com") None))
  = Returned tt /\
  aliasRecords
    (fst (ReactServerStack (Sample.host Sample.threeEntries)
            (stackProps None (Some Sample.zoneExample) (Some "www") (Some "example.com") None)))
  = [ ("AliasRecord",
       {| zone := Sample.zoneExample;
          target := CloudFrontTarget "CloudFront";
          recordName := "www" |}) ].
Proof.
  split; [reflexivity|].
  apply (proj2 (alias_record_iff_hosted_zone
                  (Sample.host Sample.threeEntries)
                  (stackProps None (Some Sample.zoneExample) (Some "www")
                              (Some "example.com") None)));
    reflexivity.
Defined.

(** C6, on the code: in the completed declaration for bare properties the
    parameter holds the host name alone, while the URL output holds that
    host name behind "https://"; no parameter value equals the value of
    the URL output. *)
Lemma parameter_is_not_url_output_counterexample :
  snd (ReactServerStack (Sample.host Sample.threeEntries) Sample.bare) = Returned tt /\
  map (fun e => stringValue (snd e))
      (parameters (fst (ReactServerStack (Sample.host Sample.threeEntries) Sample.bare)))
  = ["${CloudFront.DomainName}"] /\
  map (fun e => (fst e, value (snd e)))
      (outputs (fst (ReactServerStack (Sample.host Sample.threeEntries) Sample.bare)))
  = [("CloudFrontURL", "https://${CloudFront.DomainName}");
     ("CloudFrontID", "${CloudFront.Id}")] /\
  ~ (exists idp p o,
        In (idp, p) (parameters (fst (ReactServerStack (Sample.host Sample.threeEntries)
                                                       Sample.bare))) /\
        In ("CloudFrontURL", o)
           (outputs (fst (ReactServerStack (Sample.host Sample.threeEntries) Sample.bare))) /\
        stringValue p = value o).
Proof.
  split; [reflexivity|]. split; [reflexivity|]. split; [reflexivity|].
  intros (idp & p & o & Hp & Ho & Heq).
  vm_compute in Hp, Ho.
  destruct Hp as [Hp|[]]. destruct Ho as [Ho|[Ho|[]]].
  - injection Hp as _ <-. injection Ho as <-. discriminate Heq.
  - discriminate Ho.
Qed.

(** C6, what the code does: every completed declaration has exactly two
    outputs, the URL "CloudFrontURL" and the identifier "CloudFrontID", and
    exactly one parameter; the parameter holds the resulting host name (the
    site domain if there is one, the distribution's domain name otherwise)
    without a scheme, and the URL output is "https://" followed by the
    parameter's value, so that the two never hold the same string. *)
Theorem two_outputs_one_parameter (h : Host) (props : ReactServerStackProps) :
  snd (ReactServerStack h props) = Returned tt ->
  exists host,
    host = match siteDomainName props with
           | Some d => d
           | None => distributionDomainName h "CloudFront"
           end /\
    outputs (fst (ReactServerStack h props)) =
    [ ("CloudFrontURL", {| value := "https://" ++ host |});
      ("CloudFrontID", {| value := distributionId h "CloudFront" |}) ] /\
    parameters (fst (ReactServerStack h props)) =
    [ ("DistributionUrlParameter",
       {| parameterName := "/" ++ stackName h ++ "/distribution/url";
          stringValue := host;
          tier := STANDARD |}) ].
Proof.
  intros Hret.
  destruct (returned_inv h props Hret) as (dirs & _ & _ & Htree).
  exists (resultingDomain h props). split; [reflexivity|].
  rewrite <- parameters_own, <- outputs_own, Htree.
  destruct (completed_readings h props (map assetBehavior dirs)) as (Hp & Ho & _).
  rewrite Hp, Ho. split; reflexivity.
Qed.

Lemma two_outputs_one_parameter_witness :
  snd (ReactServerStack (Sample.host Sample.threeEntries)
         (stackProps None None (Some "www") (Some "example.com") None)) = Returned tt /\
  exists host,
    host = "www.example.com" /\
    outputs (fst (ReactServerStack (Sample.host Sample.threeEntries)
                    (stackProps None None (Some "www") (Some "example.com") None))) =
    [ ("CloudFrontURL", {| value := "https://" ++ host |});
      ("CloudFrontID", {| value := "${CloudFront.Id}" |}) ] /\
    parameters (fst (ReactServerStack (Sample.host Sample.threeEntries)
                       (stackProps None None (Some "www") (Some "example.com") None))) =
    [ ("DistributionUrlParameter",
       {| parameterName := "/ReactServer/distribution/url";
          stringValue := host;
          tier := STANDARD |}) ].
Proof.
  split; [reflexivity|].
  apply (two_outputs_one_parameter
           (Sample.host Sample.threeEntries)
           (stackProps None None (Some "www") (Some "example.com") None)).
  reflexivity.
Defined.

(** C7: when the quota check fails, nothing is declared after it: the tree
    holds no added routing behaviour, no bucket deployment, no alias
    record, no parameter and no output. *)
Theorem quota_failure_declares_nothing_further
    (h : Host) (props : ReactServerStackProps) (dirs : list string) :
  cfS3directories h = Some dirs ->
  Z.of_nat (length dirs) > maxBehaviorsOf props ->
  threw (snd (ReactServerStack h props)) = true /\
  addedBehaviors (fst (ReactServerStack h props)) = [] /\
  bucketDeployments (fst (ReactServerStack h props)) = [] /\
  aliasRecords (fst (ReactServerStack h props)) = [] /\
  parameters (fst (ReactServerStack h props)) = [] /\
  outputs (fst (ReactServerStack h props)) = [].
Proof.
  intros Hfs Hgt.
  run_cases h props; try same_listing; try lia;
    (split; [reflexivity|]);
    rewrite <- addedBehaviors_own, <- bucketDeployments_own, <- aliasRecords_own,
      <- parameters_own, <- outputs_own;
    match goal with Hown : own _ = _ |- _ => rewrite Hown end.
  - apply observers_first_prefix.
  - apply observers_first.
Qed.

Lemma quota_failure_declares_nothing_further_witness :
  cfS3directories (Sample.host Sample.threeEntries) = Some ["assets"; "client"] /\
  Z.of_nat (length ["assets"; "client"])
  > maxBehaviorsOf (stackProps None (Some Sample.zoneExample) None None (Some 0)) /\
  aliasRecords
    (fst (ReactServerStack (Sample.host Sample.threeEntries)
            (stackProps None (Some Sample.zoneExample) None None (Some 0)))) = [] /\
  outputs
    (fst (ReactServerStack (Sample.host Sample.threeEntries)
            (stackProps None (Some Sample.zoneExample) None None (Some 0)))) = [].
Proof.
  split; [reflexivity|]. split; [reflexivity|].
  destruct (quota_failure_declares_nothing_further
              (Sample.host Sample.threeEntries)
              (stackProps None (Some Sample.zoneExample) None None (Some 0))
              ["assets"; "client"])
    as (_ & _ & _ & Ha & _ & Ho); [reflexivity | reflexivity |].
  split; [exact Ha | exact Ho].
Defined.

Lemma certificateOf_string (s : string) (z : option IHostedZone)
    (sub dom : option string) (quota : option Z) :
  certificateOf (stackProps (Some (CertificateString s)) z sub dom quota) = None.
Proof.
  unfold certificateOf. cbn. rewrite andb_false_r. reflexivity.
Qed.

(** C8: a certificate given as a string is treated as absent: the computed
    certificate is undefined, no distribution of the tree carries a
    certificate (and the distribution is there unless a library
    constructor stopped the run), and the whole run is the run of the same
    properties with the certificate omitted. *)
Theorem string_certificate_is_ignored (h : Host) (s : string)
    (z : option IHostedZone) (sub dom : option string) (quota : option Z) :
  certificateOf (stackProps (Some (CertificateString s)) z sub dom quota) = None /\
  (forall id p,
      In (id, p)
         (distributions
            (fst (ReactServerStack h (stackProps (Some (CertificateString s)) z sub dom quota)))) ->
      distributionCertificate p = None) /\
  (stoppedByFramework
     (snd (ReactServerStack h (stackProps (Some (CertificateString s)) z sub dom quota)))
   = false ->
   exists p,
     distributions
       (fst (ReactServerStack h (stackProps (Some (CertificateString s)) z sub dom quota)))
     = [("CloudFront", p)] /\
     distributionCertificate p = None) /\
  ReactServerStack h (stackProps (Some (CertificateString s)) z sub dom quota)
  = ReactServerStack h (stackProps None z sub dom quota).
Proof.
  destruct (distributions_run h (stackProps (Some (CertificateString s)) z sub dom quota))
    as (Hall & Hone).
  split; [apply certificateOf_string|]. split; [|split].
  - intros id p Hin. destruct (Hall id p Hin) as (_ & _ & Hc).
    rewrite Hc. apply certificateOf_string.
  - intros Hns. destruct (Hone (or_introl Hns)) as (p & Hd & _ & Hc).
    exists p. split; [exact Hd|]. rewrite Hc. apply certificateOf_string.
  - unfold ReactServerStack, constructor.
    rewrite certificateOf_string. reflexivity.
Qed.

Lemma string_app_assoc (a b c : string) : ((a ++ b) ++ c = a ++ b ++ c)%string.
Proof.
  induction a as [|x a IH]; cbn; [reflexivity | rewrite IH; reflexivity].
Qed.

Lemma siteDomainNameOf_nonempty (sub : option string) (d : string) :
  d <> "" ->
  siteDomainNameOf sub (Some d) =
  Some (match sub with
        | Some s => if (s =? "")%string then d else s ++ "." ++ d
        | None => d
        end).
Proof.
  intros Hd. unfold siteDomainNameOf.
  destruct d as [|a d]; [congruence|]. cbn [Js.ofString Js.truthy String.eqb negb].
  destruct sub as [[|b s]|]; cbn [Js.optLength Js.coalesce Js.truthy Js.template
                                  String.length String.eqb]; try reflexivity.
  replace (negb (Z.of_nat (S (String.length s)) =? 0)) with true
    by (symmetry; apply negb_true_iff, Z.eqb_neq; lia).
  rewrite string_app_assoc. reflexivity.
Qed.

(** C9, as stated, fails: an empty domain name is supplied together with
    the subdomain "www", and the site domain is undefined, not "www."
    followed by the domain name. *)
Lemma empty_domain_name_counterexample :
  optField domainName (stackProps None None (Some "www") (Some "") None) = Some "" /\
  optField subDomain (stackProps None None (Some "www") (Some "") None) = Some "www" /\
  siteDomainName (stackProps None None (Some "www") (Some "") None) = None /\
  siteDomainName (stackProps None None (Some "www") (Some "") None)
  <> Some ("www" ++ "." ++ "").
Proof.
  repeat split; try reflexivity. vm_compute. discriminate.
Qed.

(** C9, amended: with a non-empty domain name, the site domain is
    "<subDomain>.<domainName>" for a non-empty subdomain and the domain name
    alone for an absent or empty one; with an absent or empty domain name
    the site domain is undefined and no distribution of the tree has custom
    domain names (the distribution is there unless a library constructor
    stopped the run). *)
Theorem site_domain_name_by_cases (h : Host) (props : ReactServerStackProps) :
  (forall d, optField domainName props = Some d -> d <> "" ->
     (forall s, optField subDomain props = Some s -> s <> "" ->
        siteDomainName props = Some (s ++ "." ++ d)) /\
     (optField subDomain props = None \/ optField subDomain props = Some "" ->
        siteDomainName props = Some d)) /\
  (optField domainName props = None \/ optField domainName props = Some "" ->
     siteDomainName props = None /\
     (forall id p,
         In (id, p) (distributions (fst (ReactServerStack h props))) ->
         domainNames p = None) /\
     (stoppedByFramework (snd (ReactServerStack h props)) = false ->
      exists p,
        distributions (fst (ReactServerStack h props)) = [("CloudFront", p)] /\
        domainNames p = None)).
Proof.
  split.
  - intros d Hdom Hd. unfold siteDomainName. rewrite Hdom.
    rewrite (siteDomainNameOf_nonempty _ d Hd). split.
    + intros s Hsub Hs. rewrite Hsub.
      destruct (String.eqb_spec s ""); [contradiction | reflexivity].
    + intros [Hsub|Hsub]; rewrite Hsub; reflexivity.
  - intros Hdom.
    assert (Hsite : siteDomainName props = None).
    { unfold siteDomainName, siteDomainNameOf.
      destruct Hdom as [Hdom|Hdom]; rewrite Hdom; reflexivity. }
    split; [exact Hsite|].
    destruct (distributions_run h props) as (Hall & Hone). split.
    + intros id p Hin. destruct (Hall id p Hin) as (_ & Hn & _).
      rewrite Hn, Hsite. reflexivity.
    + intros Hns. destruct (Hone (or_introl Hns)) as (p & Hd & Hn & _).
      exists p. split; [exact Hd|]. rewrite Hn, Hsite. reflexivity.
Qed.

Lemma site_domain_name_by_cases_witness :
  optField domainName (stackProps None None (Some "www") (Some "example.com") None)
  = Some "example.com" /\
  "example.com" <> "" /\
  optField subDomain (stackProps None None (Some "www") (Some "example.com") None)
  = Some "www" /\
  "www" <> "" /\
  siteDomainName (stackProps None None (Some "www") (Some "example.com") None)
  = Some "www.example.com".
Proof.
  split; [reflexivity|]. split; [discriminate|]. split; [reflexivity|].
  split; [discriminate|].
  apply (proj1 (proj1 (site_domain_name_by_cases
                         (Sample.host Sample.threeEntries)
                         (stackProps None None (Some "www") (Some "example.com") None))
                      "example.com" eq_refl ltac:(discriminate))
               "www" eq_refl ltac:(discriminate)).
Defined.

(** C10: when the maximum-behaviour count is not supplied, the quota is 25:
    with the directories discovered, the constructor throws whenever there
    are more than 25 of them; unless a library constructor throws, it
    throws only then, and the error it throws names 25. *)
Theorem default_quota_is_25
    (h : Host) (props : ReactServerStackProps) (dirs : list string) :
  optField maxBehaviors props = None ->
  cfS3directories h = Some dirs ->
  maxBehaviorsOf props = 25 /\
  (Z.of_nat (length dirs) > 25 -> threw (snd (ReactServerStack h props)) = true) /\
  (stoppedByFramework (snd (ReactServerStack h props)) = false ->
   (threw (snd (ReactServerStack h props)) = true <-> Z.of_nat (length dirs) > 25) /\
   (Z.of_nat (length dirs) > 25 ->
    snd (ReactServerStack h props) =
    Thrown (JsError
              ("CloudFront distributions can only have up to 25 behaviors. "
               ++ "Please reduce the number of directories in the static directory "
               ++ "or request a higher quota.")))).
Proof.
  intros Hmax Hfs.
  assert (H25 : maxBehaviorsOf props = 25) by (unfold maxBehaviorsOf; rewrite Hmax; reflexivity).
  split; [exact H25|].
  run_cases h props; try same_listing; cbn [threw stoppedByFramework];
    rewrite ?H25 in *.
  - split; [reflexivity|]. congruence.
  - split; [reflexivity|]. intros _.
    split; [split; [lia | reflexivity]|]. intros _. reflexivity.
  - split; [lia|]. congruence.
  - split; [lia|]. intros _. split; [split; [discriminate | lia] | lia].
Qed.

Lemma default_quota_is_25_witness :
  optField maxBehaviors Sample.bare = None /\
  cfS3directories (Sample.host Sample.manyEntries) = Some (map fst Sample.manyEntries) /\
  Z.of_nat (length (map fst Sample.manyEntries)) > 25 /\
  stoppedByFramework (snd (ReactServerStack (Sample.host Sample.manyEntries) Sample.bare))
  = false /\
  snd (ReactServerStack (Sample.host Sample.manyEntries) Sample.bare) =
  Thrown (JsError
            ("CloudFront distributions can only have up to 25 behaviors. "
             ++ "Please reduce the number of directories in the static directory "
             ++ "or request a higher quota.")).
Proof.
  split; [reflexivity|]. split; [vm_compute; reflexivity|]. split; [reflexivity|].
  split; [vm_compute; reflexivity|].
  apply (default_quota_is_25 (Sample.host Sample.manyEntries) Sample.bare
                             (map fst Sample.manyEntries));
    [reflexivity | vm_compute; reflexivity | vm_compute; reflexivity | reflexivity].
Defined.

(** ** Further properties of the code *)

(** *** Listing the directories (lines 137-143) *)

Lemma filterDirectories_filter (h : Host) (source : string) (names : list string) :
  (forall n, In n names -> statIsDirectory h (join h source n) <> None) ->
  filterDirectories h source names = Some (filter (keptByFilter h source) names).
Proof.
  induction names as [|name rest IH]; intros Hok; [reflexivity|].
  cbn [filterDirectories filter]. unfold keptByFilter at 1.
  destruct (statIsDirectory h (join h source name)) as [isDir|] eqn:Hstat.
  - rewrite IH by (intros n Hn; apply Hok; right; exact Hn).
    destruct isDir; reflexivity.
  - exfalso. apply (Hok name); [left; reflexivity | exact Hstat].
Qed.

Lemma filterDirectories_None (h : Host) (source : string) (names : list string) :
  filterDirectories h source names = None <->
  exists n, In n names /\ statIsDirectory h (join h source n) = None.
Proof.
  induction names as [|name rest IH]; cbn [filterDirectories].
  - split; [discriminate | intros (n & [] & _)].
  - destruct (statIsDirectory h (join h source name)) as [isDir|] eqn:Hstat.
    + destruct (filterDirectories h source rest) as [dirs|].
      * split; [discriminate|]. intros (n & [<-|Hn] & Hnone); [congruence|].
        assert (Hbad : Some dirs = None) by (apply IH; exists n; auto).
        discriminate Hbad.
      * split; [|reflexivity]. intros _.
        destruct (proj1 IH eq_refl) as (n & Hn & Hnone). exists n. split; [right|]; assumption.
    + split; [|reflexivity]. intros _. exists name. split; [left; reflexivity | exact Hstat].
Qed.

Lemma filterDirectories_Some_ok (h : Host) (source : string) (names dirs : list string) :
  filterDirectories h source names = Some dirs ->
  forall n, In n names -> statIsDirectory h (join h source n) <> None.
Proof.
  intros Hsome n Hn Hnone.
  assert (Hfail : filterDirectories h source names = None)
    by (apply filterDirectories_None; exists n; auto).
  congruence.
Qed.

Lemma getDirectories_Some_inv (h : Host) (source : string) (dirs : list string) :
  getDirectories h source = Some dirs ->
  exists names,
    readdirSync h source = Some names /\
    (forall n, In n names -> statIsDirectory h (join h source n) <> None) /\
    dirs = filter (keptByFilter h source) names.
Proof.
  unfold getDirectories. intros Hget.
  destruct (readdirSync h source) as [names|]; [|discriminate].
  exists names. split; [reflexivity|].
  pose proof (filterDirectories_Some_ok h source names dirs Hget) as Hok.
  split; [exact Hok|].
  rewrite (filterDirectories_filter h source names Hok) in Hget. congruence.
Qed.

(** X1: [getDirectories] returns a list exactly when the listing succeeds
    and [statSync] succeeds on every entry, and the list is then the
    entries that are directories, in listing order. *)
Theorem getDirectories_is_filter (h : Host) (source : string) (dirs : list string) :
  getDirectories h source = Some dirs <->
  exists names,
    readdirSync h source = Some names /\
    (forall n, In n names -> statIsDirectory h (join h source n) <> None) /\
    dirs = filter (fun name => match statIsDirectory h (join h source name) with
                               | Some true => true
                               | _ => false
                               end) names.
Proof.
  split.
  - apply getDirectories_Some_inv.
  - intros (names & Hread & Hok & ->). unfold getDirectories. rewrite Hread.
    apply filterDirectories_filter. exact Hok.
Qed.

(** X2: [getDirectories] fails exactly when the listing fails or [statSync]
    fails on one of the listed entries, directory or not. *)
Theorem getDirectories_fails_iff (h : Host) (source : string) :
  getDirectories h source = None <->
  readdirSync h source = None \/
  exists names n,
    readdirSync h source = Some names /\ In n names /\
    statIsDirectory h (join h source n) = None.
Proof.
  unfold getDirectories.
  destruct (readdirSync h source) as [names|].
  - rewrite filterDirectories_None. split.
    + intros (n & Hn & Hnone). right. exists names, n. auto.
    + intros [Hd|(names' & n & Heq & Hn & Hnone)]; [discriminate|].
      injection Heq as <-. exists n. auto.
  - split; [left|]; reflexivity.
Qed.

(** X3: the directories found are among the listed entries, no more
    numerous than them, and without repetition when the listing has none. *)
Theorem getDirectories_within_listing
    (h : Host) (source : string) (names dirs : list string) :
  readdirSync h source = Some names ->
  getDirectories h source = Some dirs ->
  incl dirs names /\
  (length dirs <= length names)%nat /\
  (NoDup names -> NoDup dirs) /\
  (forall d, In d dirs -> statIsDirectory h (join h source d) = Some true).
Proof.
  intros Hread Hget.
  destruct (getDirectories_Some_inv h source dirs Hget) as (names' & Hread' & _ & ->).
  assert (names' = names) as -> by congruence.
  split; [apply incl_filter|]. split; [apply filter_length_le|].
  split; [apply NoDup_filter|].
  intros d Hd. apply filter_In in Hd. destruct Hd as (_ & Hk).
  unfold keptByFilter in Hk.
  destruct (statIsDirectory h (join h source d)) as [[|]|]; congruence.
Qed.

Lemma getDirectories_within_listing_witness :
  readdirSync (Sample.host Sample.threeEntries) Sample.staticPath
  = Some ["assets"; "index.html"; "client"] /\
  getDirectories (Sample.host Sample.threeEntries) Sample.staticPath
  = Some ["assets"; "client"] /\
  incl ["assets"; "client"] ["assets"; "index.html"; "client"] /\
  (length ["assets"; "client"] <= length ["assets"; "index.html"; "client"])%nat.
Proof.
  split; [reflexivity|]. split; [reflexivity|].
  destruct (getDirectories_within_listing
              (Sample.host Sample.threeEntries) Sample.staticPath
              ["assets"; "index.html"; "client"] ["assets"; "client"])
    as (Hincl & Hlen & _); [reflexivity | reflexivity |].
  split; [exact Hincl | exact Hlen].
Defined.

(** *** Failure of the listing (lines 136-143) *)

Lemma firstStatFailure_Some (h : Host) (source : string) (names : list string)
    (path : string) :
  firstStatFailure h source names = Some path ->
  filterDirectories h source names = None /\
  exists name,
    In name names /\ path = join h source name /\
    statIsDirectory h path = None.
Proof.
  induction names as [|name rest IH]; cbn; [discriminate|].
  destruct (statIsDirectory h (join h source name)) as [isDir|] eqn:Hstat.
  - intros Hrest. destruct (IH Hrest) as (Hnone & n & Hn & Hp & Hs).
    rewrite Hnone. split; [reflexivity|]. exists n. auto.
  - intros Hp. injection Hp as <-. split; [reflexivity|]. exists name. auto.
Qed.

Lemma failingPath_Some (h : Host) (source path : string) :
  failingPath h source = Some path -> getDirectories h source = None.
Proof.
  unfold failingPath, getDirectories.
  destruct (readdirSync h source) as [names|]; [|reflexivity].
  intros Hp. apply (firstStatFailure_Some h source names path Hp).
Qed.

(** X4: when a call of the listing fails and no library constructor has
    thrown before it, the constructor throws the file-system error of
    that call, which names the static directory if [readdirSync] fails and
    otherwise the first listed entry on which [statSync] fails; the bucket,
    the function, the HTTP API and the distribution have been declared by
    then, and nothing is declared further. *)
Theorem listing_failure_aborts_after_first_four
    (h : Host) (props : ReactServerStackProps) (path : string) :
  failingPath h (staticDirectory h) = Some path ->
  stoppedByFramework (snd (ReactServerStack h props)) = false ->
  snd (ReactServerStack h props) = Thrown (FsError path) /\
  (readdirSync h (staticDirectory h) = None -> path = staticDirectory h) /\
  (forall names,
      readdirSync h (staticDirectory h) = Some names ->
      exists name,
        In name names /\ path = join h (staticDirectory h) name /\
        statIsDirectory h path = None) /\
  (exists b f a d,
      In ("StaticAssetsBucket", Bucket b) (fst (ReactServerStack h props)) /\
      In ("RequestHandler", LambdaFunction f) (fst (ReactServerStack h props)) /\
      In ("WebsiteApi", HttpApi a) (fst (ReactServerStack h props)) /\
      In ("CloudFront", Distribution d []) (fst (ReactServerStack h props))) /\
  addedBehaviors (fst (ReactServerStack h props)) = [] /\
  bucketDeployments (fst (ReactServerStack h props)) = [] /\
  aliasRecords (fst (ReactServerStack h props)) = [] /\
  parameters (fst (ReactServerStack h props)) = [] /\
  outputs (fst (ReactServerStack h props)) = [].
Proof.
  intros Hpath Hns.
  pose proof (failingPath_Some h _ path Hpath) as Hnone.
  fold (cfS3directories h) in Hnone.
  assert (Hread : (readdirSync h (staticDirectory h) = None -> path = staticDirectory h) /\
                  (forall names,
                      readdirSync h (staticDirectory h) = Some names ->
                      exists name,
                        In name names /\ path = join h (staticDirectory h) name /\
                        statIsDirectory h path = None)).
  { unfold failingPath in Hpath.
    destruct (readdirSync h (staticDirectory h)) as [names|].
    - split; [discriminate|]. intros names' Heq. injection Heq as <-.
      apply (firstStatFailure_Some h _ names path Hpath).
    - split; [intros _; congruence | discriminate]. }
  destruct Hread as (Hread1 & Hread2).
  run_cases h props; cbn [stoppedByFramework] in Hns; try congruence.
  match goal with
  | H : failingPath _ _ = Some ?p |- _ => assert (p = path) by congruence; subst
  end.
  match goal with Hown : own _ = _ |- _ => rename Hown into Htree end.
  split; [reflexivity|]. split; [exact Hread1|]. split; [exact Hread2|]. split.
  - do 4 eexists. repeat split; apply own_In; rewrite Htree;
      unfold declaredFirst; cbn [In]; auto 6.
  - rewrite <- addedBehaviors_own, <- bucketDeployments_own, <- aliasRecords_own,
      <- parameters_own, <- outputs_own, Htree.
    apply observers_first.
Qed.

Lemma listing_failure_aborts_after_first_four_witness :
  failingPath Sample2.racyHost (staticDirectory Sample2.racyHost)
  = Some "/app/cdk/lib/../../.aws-react-server/output/static/gone" /\
  stoppedByFramework (snd (ReactServerStack Sample2.racyHost Sample.bare)) = false /\
  snd (ReactServerStack Sample2.racyHost Sample.bare)
  = Thrown (FsError "/app/cdk/lib/../../.aws-react-server/output/static/gone").
Proof.
  split; [reflexivity|]. split; [reflexivity|].
  apply (listing_failure_aborts_after_first_four
           Sample2.racyHost Sample.bare
           "/app/cdk/lib/../../.aws-react-server/output/static/gone");
    reflexivity.
Defined.

(** X14: the module's own code throws in two ways only: the file-system
    error of the failing call when the listing fails, and the quota error
    when the directories outnumber the maximum; every other error of the
    constructor is the error of a library constructor. *)
Theorem thrown_errors_are_listing_or_quota
    (h : Host) (props : ReactServerStackProps) (e : Error) :
  snd (ReactServerStack h props) = Thrown e ->
  frameworkError e = true \/
  (exists path,
      cfS3directories h = None /\
      failingPath h (staticDirectory h) = Some path /\
      e = FsError path) \/
  (exists dirs,
      cfS3directories h = Some dirs /\
      Z.of_nat (length dirs) > maxBehaviorsOf props /\
      e = JsError (quotaMessage h (maxBehaviorsOf props))).
Proof.
  intros Hthrown.
  run_cases h props; try congruence.
  - left. assumption.
  - right. left. exists_path. auto.
  - right. right. exists_dirs. auto.
  - left. assumption.
Qed.

Lemma thrown_errors_are_listing_or_quota_witness :
  snd (ReactServerStack Sample2.unreadableHost Sample.bare)
  = Thrown (FsError Sample.staticPath) /\
  (frameworkError (FsError Sample.staticPath) = true \/
   (exists path,
       cfS3directories Sample2.unreadableHost = None /\
       failingPath Sample2.unreadableHost (staticDirectory Sample2.unreadableHost)
       = Some path /\
       FsError Sample.staticPath = FsError path) \/
   (exists dirs,
       cfS3directories Sample2.unreadableHost = Some dirs /\
       Z.of_nat (length dirs) > maxBehaviorsOf Sample.bare /\
       FsError Sample.staticPath
       = JsError (quotaMessage Sample2.unreadableHost (maxBehaviorsOf Sample.bare)))).
Proof.
  split; [reflexivity|].
  apply (thrown_errors_are_listing_or_quota Sample2.unreadableHost Sample.bare).
  reflexivity.
Defined.

(** *** Certificate and custom domain (lines 42-53, 123-134, 183-195) *)

(** X5: a certificate given as an object is the computed certificate;
    every distribution of the tree carries it, and the distribution is
    there, carrying it, unless a library constructor stopped the run. *)
Theorem certificate_object_is_attached
    (h : Host) (props : ReactServerStackProps) (c : ICertificate) :
  optField certificate props = Some (CertificateObject c) ->
  certificateOf props = Some c /\
  (forall id p,
      In (id, p) (distributions (fst (ReactServerStack h props))) ->
      distributionCertificate p = Some c) /\
  (stoppedByFramework (snd (ReactServerStack h props)) = false ->
   exists p,
     distributions (fst (ReactServerStack h props)) = [("CloudFront", p)] /\
     distributionCertificate p = Some c).
Proof.
  intros Hcert.
  assert (Hc : certificateOf props = Some c)
    by (unfold certificateOf; rewrite Hcert; reflexivity).
  split; [exact Hc|].
  destruct (distributions_run h props) as (Hall & Hone). split.
  - intros id p Hin. destruct (Hall id p Hin) as (_ & _ & Hp). congruence.
  - intros Hns. destruct (Hone (or_introl Hns)) as (p & Hd & _ & Hp).
    exists p. split; [exact Hd | congruence].
Qed.

Lemma certificate_object_is_attached_witness :
  optField certificate
    (stackProps (Some (CertificateObject Sample2.certificateExample)) None None None None)
  = Some (CertificateObject Sample2.certificateExample) /\
  certificateOf
    (stackProps (Some (CertificateObject Sample2.certificateExample)) None None None None)
  = Some Sample2.certificateExample.
Proof.
  split; [reflexivity|].
  apply (certificate_object_is_attached
           Sample2.strictHost
           (stackProps (Some (CertificateObject Sample2.certificateExample))
                       None None None None)
           Sample2.certificateExample).
  reflexivity.
Defined.

(** X6: a site domain, once computed, is never the empty string; it is the
    one custom domain name of every distribution of the tree (the
    distribution is there unless a library constructor stopped the run);
    and in a completed declaration the parameter holds it and the URL
    output is "https://" followed by it, the distribution's own domain
    name being published nowhere. *)
Theorem site_domain_is_published
    (h : Host) (props : ReactServerStackProps) (d : string) :
  siteDomainName props = Some d ->
  d <> "" /\
  (forall id p,
      In (id, p) (distributions (fst (ReactServerStack h props))) ->
      domainNames p = Some [d]) /\
  (stoppedByFramework (snd (ReactServerStack h props)) = false ->
   exists p,
     distributions (fst (ReactServerStack h props)) = [("CloudFront", p)] /\
     domainNames p = Some [d]) /\
  (snd (ReactServerStack h props) = Returned tt ->
   map (fun e => stringValue (snd e)) (parameters (fst (ReactServerStack h props))) = [d] /\
   map (fun e => value (snd e)) (outputs (fst (ReactServerStack h props)))
   = ["https://" ++ d; distributionId h "CloudFront"]).
Proof.
  intros Hsite.
  destruct (distributions_run h props) as (Hall & Hone).
  split; [|split; [|split]].
  - pose proof (siteDomainName_truthy props) as Ht. rewrite Hsite in Ht. cbn in Ht.
    intros ->. discriminate Ht.
  - intros id p Hin. destruct (Hall id p Hin) as (_ & Hn & _).
    rewrite Hn, Hsite. reflexivity.
  - intros Hns. destruct (Hone (or_introl Hns)) as (p & Hd & Hn & _).
    exists p. split; [exact Hd|]. rewrite Hn, Hsite. reflexivity.
  - intros Hret.
    destruct (returned_inv h props Hret) as (dirs & _ & _ & Htree).
    rewrite <- parameters_own, <- outputs_own, Htree.
    destruct (completed_readings h props (map assetBehavior dirs)) as (Hp & Ho & _).
    rewrite Hp, Ho. unfold resultingDomain. rewrite Hsite. split; reflexivity.
Qed.

Lemma site_domain_is_published_witness :
  siteDomainName (stackProps None None (Some "www") (Some "example.com") None)
  = Some "www.example.com" /\
  stoppedByFramework
    (snd (ReactServerStack (Sample.host Sample.threeEntries)
            (stackProps None None (Some "www") (Some "example.com") None))) = false /\
  (exists p,
      distributions
        (fst (ReactServerStack (Sample.host Sample.threeEntries)
                (stackProps None None (Some "www") (Some "example.com") None)))
      = [("CloudFront", p)] /\
      domainNames p = Some ["www.example.com"]).
Proof.
  split; [reflexivity|]. split; [reflexivity|].
  apply (site_domain_is_published
           (Sample.host Sample.threeEntries)
           (stackProps None None (Some "www") (Some "example.com") None)
           "www.example.com");
    reflexivity.
Defined.

(** *** The quota check and the other properties (lines 54, 146-157) *)

(** X7: errors of the library's constructors apart, whether the
    constructor returns or throws, the error it throws and the behaviours
    it adds depend on the properties through the maximum alone. *)
Theorem outcome_depends_on_maximum_only
    (h : Host) (props1 props2 : ReactServerStackProps) :
  maxBehaviorsOf props1 = maxBehaviorsOf props2 ->
  stoppedByFramework (snd (ReactServerStack h props1)) = false ->
  stoppedByFramework (snd (ReactServerStack h props2)) = false ->
  snd (ReactServerStack h props1) = snd (ReactServerStack h props2) /\
  addedBehaviors (fst (ReactServerStack h props1))
  = addedBehaviors (fst (ReactServerStack h props2)).
Proof.
  intros Hmax Hns1 Hns2.
  destruct (not_stopped_inv h props1 Hns1)
    as [(p1 & Hfs1 & Hp1 & Ho1 & Ht1)|[(d1 & Hfs1 & Hc1 & Ho1 & Ht1)|(d1 & Hfs1 & Hc1 & Ho1 & Ht1)]];
  destruct (not_stopped_inv h props2 Hns2)
    as [(p2 & Hfs2 & Hp2 & Ho2 & Ht2)|[(d2 & Hfs2 & Hc2 & Ho2 & Ht2)|(d2 & Hfs2 & Hc2 & Ho2 & Ht2)]];
  try congruence;
  try (assert (d1 = d2) by congruence; subst d2); try lia;
  rewrite Ho1, Ho2, <- (addedBehaviors_own (fst (ReactServerStack h props1))),
    <- (addedBehaviors_own (fst (ReactServerStack h props2))), Ht1, Ht2.
  - split; [congruence|].
    rewrite (proj1 (observers_first h props1 [])), (proj1 (observers_first h props2 [])).
    reflexivity.
  - rewrite Hmax. split; [reflexivity|].
    rewrite (proj1 (observers_first h props1 [])), (proj1 (observers_first h props2 [])).
    reflexivity.
  - rewrite !addedBehaviors_returned. split; reflexivity.
Qed.

Lemma outcome_depends_on_maximum_only_witness :
  maxBehaviorsOf (stackProps None (Some Sample.zoneExample) (Some "www")
                             (Some "example.com") (Some 25))
  = maxBehaviorsOf Sample.bare /\
  snd (ReactServerStack (Sample.host Sample.threeEntries)
         (stackProps None (Some Sample.zoneExample) (Some "www")
                     (Some "example.com") (Some 25)))
  = snd (ReactServerStack (Sample.host Sample.threeEntries) Sample.bare).
Proof.
  split; [reflexivity|].
  apply (outcome_depends_on_maximum_only
           (Sample.host Sample.threeEntries)
           (stackProps None (Some Sample.zoneExample) (Some "www")
                       (Some "example.com") (Some 25))
           Sample.bare);
    reflexivity.
Defined.

Lemma bind_ext_on {A B : Type} (m : M A) (k1 k2 : A -> M B) (t : Tree) :
  (forall a t', m t = (t', Returned a) -> k1 a t' = k2 a t') ->
  bind m k1 t = bind m k2 t.
Proof.
  intros Hk. unfold bind. destruct (m t) as [t' [a|e]]; [apply Hk|]; reflexivity.
Qed.

(** X8: a declaration that completes under one maximum completes under
    every larger one, with the very same tree: the maximum only gates the
    declaration and leaves no trace in it. *)
Theorem larger_maximum_same_declaration
    (h : Host) (cert : option CertificateProp) (z : option IHostedZone)
    (sub dom : option string) (quota quota' : option Z) :
  snd (ReactServerStack h (stackProps cert z sub dom quota)) = Returned tt ->
  maxBehaviorsOf (stackProps cert z sub dom quota)
  <= maxBehaviorsOf (stackProps cert z sub dom quota') ->
  ReactServerStack h (stackProps cert z sub dom quota')
  = ReactServerStack h (stackProps cert z sub dom quota).
Proof.
  intros Hret Hle. unfold ReactServerStack, constructor in *. cbv zeta in *.
  change (certificateOf (stackProps cert z sub dom quota'))
    with (certificateOf (stackProps cert z sub dom quota)).
  change (siteDomainName (stackProps cert z sub dom quota'))
    with (siteDomainName (stackProps cert z sub dom quota)).
  change (optField hostedZone (stackProps cert z sub dom quota'))
    with (optField hostedZone (stackProps cert z sub dom quota)).
  change (optField subDomain (stackProps cert z sub dom quota'))
    with (optField subDomain (stackProps cert z sub dom quota)).
  do 5 (apply bind_ext_on; intros ? ? Hm; rewrite (bind_returned _ _ _ _ _ Hm) in Hret;
        clear Hm).
  unfold when in *.
  match goal with
  | |- context [Z.of_nat ?len >? maxBehaviorsOf (stackProps cert z sub dom quota)] =>
      destruct (Z.gtb_spec (Z.of_nat len) (maxBehaviorsOf (stackProps cert z sub dom quota)));
      [ rewrite bind_throw in Hret; discriminate Hret |];
      destruct (Z.gtb_spec (Z.of_nat len) (maxBehaviorsOf (stackProps cert z sub dom quota')));
      [ lia | reflexivity ]
  end.
Qed.

Lemma larger_maximum_same_declaration_witness :
  snd (ReactServerStack (Sample.host Sample.threeEntries)
         (stackProps None None None None (Some 2))) = Returned tt /\
  maxBehaviorsOf (stackProps None None None None (Some 2))
  <= maxBehaviorsOf (stackProps None None None None None) /\
  ReactServerStack (Sample.host Sample.threeEntries) (stackProps None None None None None)
  = ReactServerStack (Sample.host Sample.threeEntries)
      (stackProps None None None None (Some 2)).
Proof.
  split; [reflexivity|]. split; [vm_compute; discriminate|].
  apply (larger_maximum_same_declaration
           (Sample.host Sample.threeEntries) None None None None (Some 2) None);
    [reflexivity | vm_compute; discriminate].
Defined.

Lemma string_length_app (a b : string) :
  String.length (a ++ b) = (String.length a + String.length b)%nat.
Proof.
  induction a as [|x a IH]; cbn; [reflexivity | rewrite IH; reflexivity].
Qed.

Lemma string_app_cancel_r (a b s : string) : (a ++ s = b ++ s)%string -> a = b.
Proof.
  revert b. induction a as [|x a IH]; intros [|y b] Heq; cbn in Heq.
  - reflexivity.
  - apply (f_equal String.length) in Heq. cbn in Heq. rewrite string_length_app in Heq. lia.
  - apply (f_equal String.length) in Heq. cbn in Heq. rewrite string_length_app in Heq. lia.
  - injection Heq as -> Heq. rewrite (IH b Heq). reflexivity.
Qed.

Lemma pathPattern_injective (d d' : string) :
  fst (assetBehavior d) = fst (assetBehavior d') -> d = d'.
Proof.
  cbn. intros Heq. injection Heq as Heq. exact (string_app_cancel_r d d' "/*" Heq).
Qed.

Lemma pathPatterns_In (name : string) (dirs : list string) :
  In ("/" ++ name ++ "/*") (map fst (map assetBehavior dirs)) -> In name dirs.
Proof.
  rewrite map_map. intros Hin. apply in_map_iff in Hin.
  destruct Hin as (d & Heq & Hd).
  rewrite <- (pathPattern_injective d name Heq). exact Hd.
Qed.

Lemma pathPatterns_NoDup (dirs : list string) :
  NoDup dirs -> NoDup (map fst (map assetBehavior dirs)).
Proof.
  induction 1 as [|d dirs Hnotin Hnodup IH]; cbn [map]; constructor; [|exact IH].
  intros Hin. apply Hnotin. apply pathPatterns_In. exact Hin.
Qed.

(** *** The routing behaviours (lines 143-157) *)

(** X11: with an empty static directory no behaviour is added; a negative
    maximum still makes the constructor throw, and, errors of the
    library's constructors apart, the error is then the quota error, while
    a maximum of zero or more lets the constructor return. *)
Theorem empty_static_directory (h : Host) (props : ReactServerStackProps) :
  cfS3directories h = Some [] ->
  addedBehaviors (fst (ReactServerStack h props)) = [] /\
  (maxBehaviorsOf props < 0 -> threw (snd (ReactServerStack h props)) = true) /\
  (stoppedByFramework (snd (ReactServerStack h props)) = false ->
   (maxBehaviorsOf props < 0 ->
    snd (ReactServerStack h props)
    = Thrown (JsError (quotaMessage h (maxBehaviorsOf props)))) /\
   (0 <= maxBehaviorsOf props -> snd (ReactServerStack h props) = Returned tt)).
Proof.
  intros Hfs. split.
  - destruct (addedBehaviors_run h props) as [Hnil|(dirs & Hfs' & _ & Hbs)];
      [exact Hnil|].
    assert (dirs = []) as -> by congruence. exact Hbs.
  - run_cases h props; try same_listing; cbn [threw stoppedByFramework length] in *.
    + split; [reflexivity|]. congruence.
    + split; [reflexivity|]. intros _. split; [reflexivity | lia].
    + split; [lia|]. congruence.
    + split; [lia|]. intros _. split; [lia | reflexivity].
Qed.

Lemma empty_static_directory_witness :
  cfS3directories (Sample.host [("index.html", false)]) = Some [] /\
  maxBehaviorsOf (Sample.quota (-1)) < 0 /\
  snd (ReactServerStack (Sample.host [("index.html", false)]) (Sample.quota (-1)))
  = Thrown (JsError (quotaMessage (Sample.host [("index.html", false)]) (-1))).
Proof.
  split; [reflexivity|]. split; [reflexivity|].
  apply (empty_static_directory (Sample.host [("index.html", false)]) (Sample.quota (-1)));
    reflexivity.
Defined.

(** X12: directories of different names get behaviours of different path
    patterns: when the discovered directories are without repetition, so
    are the path patterns added to the distribution. *)
Theorem distinct_directories_distinct_patterns
    (h : Host) (props : ReactServerStackProps) (dirs : list string) :
  cfS3directories h = Some dirs ->
  NoDup dirs ->
  NoDup (map fst (addedBehaviors (fst (ReactServerStack h props)))).
Proof.
  intros Hfs Hnodup.
  destruct (addedBehaviors_run h props) as [Hnil|(dirs' & Hfs' & _ & Hbs)].
  - rewrite Hnil. constructor.
  - rewrite Hbs. assert (dirs' = dirs) as -> by congruence.
    apply pathPatterns_NoDup. exact Hnodup.
Qed.

Lemma distinct_directories_distinct_patterns_witness :
  cfS3directories (Sample.host Sample.threeEntries) = Some ["assets"; "client"] /\
  NoDup
    (map fst (addedBehaviors (fst (ReactServerStack (Sample.host Sample.threeEntries)
                                                    Sample.bare)))).
Proof.
  split; [reflexivity|].
  apply (distinct_directories_distinct_patterns
           (Sample.host Sample.threeEntries) Sample.bare ["assets"; "client"]).
  - reflexivity.
  - constructor; [intros [H|[]]; discriminate H|].
    constructor; [intros []|]. constructor.
Defined.

(** X13: an entry of the static directory that is not a directory never
    gets a routing behaviour: no added behaviour has the path pattern
    "/<entry>/*". *)
Theorem non_directory_gets_no_behavior
    (h : Host) (props : ReactServerStackProps) (name : string) :
  statIsDirectory h (join h (staticDirectory h) name) <> Some true ->
  ~ In ("/" ++ name ++ "/*")
       (map fst (addedBehaviors (fst (ReactServerStack h props)))).
Proof.
  intros Hstat Hin.
  destruct (addedBehaviors_run h props) as [Hnil|(dirs & Hfs & _ & Hbs)].
  - rewrite Hnil in Hin. exact Hin.
  - rewrite Hbs in Hin. apply pathPatterns_In in Hin.
    destruct (getDirectories_Some_inv h (staticDirectory h) dirs Hfs) as (names & _ & _ & ->).
    apply filter_In in Hin. destruct Hin as (_ & Hk). unfold keptByFilter in Hk.
    destruct (statIsDirectory h (join h (staticDirectory h) name)) as [[|]|];
      [apply Hstat; reflexivity | discriminate | discriminate].
Qed.

Lemma non_directory_gets_no_behavior_witness :
  statIsDirectory (Sample.host Sample.threeEntries)
    (join (Sample.host Sample.threeEntries)
          (staticDirectory (Sample.host Sample.threeEntries)) "index.html")
  <> Some true /\
  ~ In "/index.html/*"
       (map fst (addedBehaviors (fst (ReactServerStack (Sample.host Sample.threeEntries)
                                                       Sample.bare)))).
Proof.
  split; [vm_compute; discriminate|].
  apply (non_directory_gets_no_behavior
           (Sample.host Sample.threeEntries) Sample.bare "index.html").
  vm_compute. discriminate.
Defined.

(** X15: on every run, the behaviours added number at most the entries of
    the static directory. *)
Theorem behaviors_bounded_by_entries
    (h : Host) (props : ReactServerStackProps) (names : list string) :
  readdirSync h (staticDirectory h) = Some names ->
  (length (addedBehaviors (fst (ReactServerStack h props))) <= length names)%nat.
Proof.
  intros Hread.
  destruct (addedBehaviors_run h props) as [Hnil|(dirs & Hfs & _ & Hbs)].
  - rewrite Hnil. apply Nat.le_0_l.
  - rewrite Hbs, length_map.
    destruct (getDirectories_Some_inv h (staticDirectory h) dirs Hfs)
      as (names' & Hread' & _ & ->).
    assert (names' = names) as -> by congruence.
    apply filter_length_le.
Qed.

Lemma behaviors_bounded_by_entries_witness :
  readdirSync (Sample.host Sample.threeEntries)
              (staticDirectory (Sample.host Sample.threeEntries))
  = Some ["assets"; "index.html"; "client"] /\
  (length (addedBehaviors (fst (ReactServerStack (Sample.host Sample.threeEntries)
                                                 Sample.bare)))
   <= length ["assets"; "index.html"; "client"])%nat.
Proof.
  split; [reflexivity|].
  apply (behaviors_bounded_by_entries (Sample.host Sample.threeEntries) Sample.bare).
  reflexivity.
Defined.

(** *** The completed declaration as a whole (lines 56-199) *)

Lemma hasChild_false (id : string) (t : Tree) :
  hasChild id t = false -> ~ In id (ids t).
Proof.
  unfold hasChild, ids. induction t as [|[id' c] t IH]; cbn; [tauto|].
  destruct (String.eqb_spec id' id) as [->|Hne]; cbn; [discriminate|].
  intros Hrest [Heq|Hin]; [contradiction | exact (IH Hrest Hin)].
Qed.

Lemma NoDup_ids_snoc (t : Tree) (id : string) (c : Construct) :
  NoDup (ids t) -> ~ In id (ids t) -> NoDup (ids (t ++ [(id, c)])%list).
Proof.
  unfold ids. rewrite map_app. cbn. intros Hnodup Hnotin.
  induction (map fst t) as [|x l IH]; cbn.
  - constructor; [tauto | constructor].
  - inversion Hnodup as [|? ? Hx Hl]; subst. constructor.
    + intros Hin. apply in_app_or in Hin. destruct Hin as [Hin|[Heq|[]]].
      * contradiction.
      * apply Hnotin. left. symmetry. exact Heq.
    + apply IH; [exact Hl|]. intros Hin. apply Hnotin. right. exact Hin.
Qed.

Lemma NoDup_addSingletons (names : list string) :
  forall t, NoDup (ids t) -> NoDup (ids (addSingletons names t)).
Proof.
  induction names as [|name names IH]; intros t Hnodup; cbn [addSingletons]; [exact Hnodup|].
  apply IH. destruct (hasChild name t) eqn:Hhas; [exact Hnodup|].
  apply NoDup_ids_snoc; [exact Hnodup | apply hasChild_false; exact Hhas].
Qed.

Lemma NoDup_declare (h : Host) (id : string) (c : Construct) (t : Tree) :
  NoDup (ids t) -> NoDup (ids (fst (declare h id c t))).
Proof.
  intros Hnodup. unfold declare.
  destruct (hasChild id t) eqn:Hhas; [exact Hnodup|].
  destruct (frameworkRejects h id c); cbn [fst]; apply NoDup_addSingletons;
    [exact Hnodup|].
  apply NoDup_ids_snoc; [exact Hnodup | apply hasChild_false; exact Hhas].
Qed.

Lemma NoDup_bind {A B : Type} (m : M A) (k : A -> M B) (t : Tree) :
  (forall t0, NoDup (ids t0) -> NoDup (ids (fst (m t0)))) ->
  (forall a t0, NoDup (ids t0) -> NoDup (ids (fst (k a t0)))) ->
  NoDup (ids t) -> NoDup (ids (fst (bind m k t))).
Proof.
  intros Hm Hk Hnodup. unfold bind. specialize (Hm t Hnodup).
  destruct (m t) as [t' [a|e]]; cbn [fst] in *; [apply Hk|]; exact Hm.
Qed.

Lemma NoDup_addBehavior (distribution pathPattern : string) (o : Origin)
    (opts : AddBehaviorOptions) (t : Tree) :
  NoDup (ids t) -> NoDup (ids (fst (addBehavior distribution pathPattern o opts t))).
Proof.
  intros Hnodup. cbn [addBehavior fst]. unfold ids in *. rewrite map_map.
  erewrite map_ext; [exact Hnodup|].
  intros [id c]. cbn [fst]. destruct (id =? distribution)%string; reflexivity.
Qed.

Lemma NoDup_forOf {A : Type} (xs : list A) (body : A -> M unit) :
  (forall x t, NoDup (ids t) -> NoDup (ids (fst (body x t)))) ->
  forall t, NoDup (ids t) -> NoDup (ids (fst (forOf xs body t))).
Proof.
  intros Hbody. induction xs as [|x xs IH]; intros t Hnodup; cbn [forOf].
  - exact Hnodup.
  - apply NoDup_bind; [apply Hbody | intros _; apply IH | exact Hnodup].
Qed.

Lemma getDirectoriesOrThrow_tree (h : Host) (source : string) (t : Tree) :
  fst (getDirectoriesOrThrow h source t) = t.
Proof.
  destruct (getDirectories h source) as [dirs|] eqn:Hg.
  - rewrite (getDirectoriesOrThrow_Some h source dirs t Hg). reflexivity.
  - destruct (getDirectoriesOrThrow_None h source t Hg) as (path & _ & Hrun).
    rewrite Hrun. reflexivity.
Qed.

(** The ids of the children of the stack stay pairwise different. *)
Lemma NoDup_constructor (h : Host) (props : ReactServerStackProps) :
  NoDup (ids (fst (ReactServerStack h props))).
Proof.
  unfold ReactServerStack, constructor. cbv zeta.
  do 4 (apply NoDup_bind; [intros; apply NoDup_declare; assumption | intros ? ? ?|];
        [|assumption || constructor]).
  apply NoDup_bind;
    [intros; rewrite getDirectoriesOrThrow_tree; assumption | intros dirs ? ? | assumption].
  apply NoDup_bind; [intros; unfold when; destruct (_ >? _); assumption | intros ? ? ? | assumption].
  apply NoDup_bind;
    [apply NoDup_forOf; intros; apply NoDup_addBehavior; assumption | intros ? ? ? | assumption].
  apply NoDup_bind; [intros; apply NoDup_declare; assumption | intros ? ? ? | assumption].
  apply NoDup_bind; [| intros ? ? ? | assumption].
  - intros. destruct (optField hostedZone props); [|assumption].
    apply NoDup_bind; [intros; apply NoDup_declare; assumption | intros; assumption | assumption].
  - do 3 (apply NoDup_bind; [intros; apply NoDup_declare; assumption | intros ? ? ? | assumption]).
    assumption.
Qed.

(** X9: in a completed declaration the module has declared, in this
    order, the bucket, the function, the HTTP API, the distribution, the
    bucket deployment, the alias record if a hosted zone is supplied, the
    parameter and the two outputs; the ids of all children of the stack,
    the library's included, are pairwise different. *)
Theorem completed_declaration_ids (h : Host) (props : ReactServerStackProps) :
  snd (ReactServerStack h props) = Returned tt ->
  ids (own (fst (ReactServerStack h props))) =
  (["StaticAssetsBucket"; "RequestHandler"; "WebsiteApi"; "CloudFront";
    "DeployStaticAssets"]
   ++ match optField hostedZone props with
      | Some _ => ["AliasRecord"]
      | None => []
      end
   ++ ["DistributionUrlParameter"; "CloudFrontURL"; "CloudFrontID"])%list /\
  NoDup (ids (fst (ReactServerStack h props))).
Proof.
  intros Hret. split; [|apply NoDup_constructor].
  destruct (returned_inv h props Hret) as (dirs & _ & _ & Htree).
  rewrite Htree. unfold declaredLast, ids.
  destruct (optField hostedZone props); reflexivity.
Qed.

Lemma completed_declaration_ids_witness :
  snd (ReactServerStack (Sample.host Sample.threeEntries)
         (stackProps None (Some Sample.zoneExample) None None None)) = Returned tt /\
  ids (own (fst (ReactServerStack (Sample.host Sample.threeEntries)
                   (stackProps None (Some Sample.zoneExample) None None None))))
  = ["StaticAssetsBucket"; "RequestHandler"; "WebsiteApi"; "CloudFront";
     "DeployStaticAssets"; "AliasRecord"; "DistributionUrlParameter";
     "CloudFrontURL"; "CloudFrontID"] /\
  length (ids (fst (ReactServerStack (Sample.host Sample.threeEntries)
                      (stackProps None (Some Sample.zoneExample) None None None))))
  = 13%nat.
Proof.
  split; [reflexivity|]. split; [|reflexivity].
  apply (completed_declaration_ids
           (Sample.host Sample.threeEntries)
           (stackProps None (Some Sample.zoneExample) None None None)).
  reflexivity.
Defined.

(** X10: in a completed declaration there is one bucket deployment; it
    uploads the static directory, the one whose subdirectories were
    listed, into the bucket that every added behaviour has as origin, that
    bucket is declared in the tree, and the distribution it invalidates
    with "/*" is the declared distribution. *)
Theorem deployment_matches_behaviors (h : Host) (props : ReactServerStackProps) :
  snd (ReactServerStack h props) = Returned tt ->
  exists dep,
    bucketDeployments (fst (ReactServerStack h props)) = [("DeployStaticAssets", dep)] /\
    sources dep = [staticDirectory h] /\
    distributionPaths dep = ["/*"] /\
    (forall pattern b,
        In (pattern, b) (addedBehaviors (fst (ReactServerStack h props))) ->
        origin b = S3BucketOriginWithOAC (destinationBucket dep)) /\
    (exists bp, In (destinationBucket dep, Bucket bp) (fst (ReactServerStack h props))) /\
    (exists p, distributions (fst (ReactServerStack h props))
               = [(deploymentDistribution dep, p)]).
Proof.
  intros Hret.
  destruct (returned_inv h props Hret) as (dirs & _ & _ & Htree).
  destruct (proj2 (distributions_run h props) (or_intror Hret)) as (p & Hd & _).
  destruct (completed_readings h props (map assetBehavior dirs)) as (_ & _ & _ & Hdep).
  rewrite Hd. rewrite <- bucketDeployments_own, <- addedBehaviors_own, Htree, Hdep.
  rewrite addedBehaviors_returned.
  eexists. split; [reflexivity|]. split; [reflexivity|]. split; [reflexivity|].
  split; [|split].
  - intros pattern b Hin. apply in_map_iff in Hin. destruct Hin as (d & Heq & _).
    unfold assetBehavior in Heq. injection Heq as _ <-. reflexivity.
  - eexists. apply own_In. rewrite Htree. apply in_or_app. left. left. reflexivity.
  - exists p. reflexivity.
Qed.

Lemma deployment_matches_behaviors_witness :
  snd (ReactServerStack (Sample.host Sample.threeEntries) Sample.bare) = Returned tt /\
  exists dep,
    bucketDeployments (fst (ReactServerStack (Sample.host Sample.threeEntries) Sample.bare))
    = [("DeployStaticAssets", dep)] /\
    sources dep = [Sample.staticPath].
Proof.
  split; [reflexivity|].
  destruct (deployment_matches_behaviors (Sample.host Sample.threeEntries) Sample.bare)
    as (dep & Hdep & Hsrc & _); [reflexivity|].
  exists dep. split; [exact Hdep | exact Hsrc].
Defined.

(** X16: the missing parentheses of line 52 are harmless:
    [subDomain?.length ?? 0 > 0], which parses as
    [subDomain?.length ?? (0 > 0)], selects the same branch as
    [(subDomain?.length ?? 0) > 0] for every subdomain, so the site domain
    is the same under both readings. *)
Theorem precedence_of_coalesce_is_harmless (sub dom : option string) :
  siteDomainNameOf sub dom = siteDomainNameParenthesised sub dom.
Proof.
  unfold siteDomainNameOf, siteDomainNameParenthesised.
  destruct (Js.truthy (Js.ofString dom)); [|reflexivity].
  destruct sub as [s|]; [|reflexivity].
  cbn [Js.optLength Js.coalesce Js.truthy].
  replace (negb (Z.of_nat (String.length s) =? 0)) with (Z.of_nat (String.length s) >? 0);
    [reflexivity|].
  destruct (Z.gtb_spec (Z.of_nat (String.length s)) 0) as [Hgt|Hle];
    symmetry; [apply negb_true_iff, Z.eqb_neq | apply negb_false_iff, Z.eqb_eq]; lia.
Qed.

(** X17: in a completed declaration with a hosted zone and a non-empty
    domain name, the alias record and the distribution agree: the custom
    domain name of the distribution is the record name, a dot and the
    domain name, or the domain name alone when the record name is empty. *)
Theorem alias_record_names_the_site_domain
    (h : Host) (props : ReactServerStackProps) (z : IHostedZone) (d : string) :
  snd (ReactServerStack h props) = Returned tt ->
  optField hostedZone props = Some z ->
  optField domainName props = Some d ->
  d <> "" ->
  exists r p,
    aliasRecords (fst (ReactServerStack h props)) = [("AliasRecord", r)] /\
    zone r = z /\
    distributions (fst (ReactServerStack h props)) = [("CloudFront", p)] /\
    domainNames p = Some [if (recordName r =? "")%string then d
                          else recordName r ++ "." ++ d].
Proof.
  intros Hret Hz Hdom Hd.
  destruct (proj2 (distributions_run h props) (or_intror Hret)) as (p & Hdist & Hn & _).
  destruct (returned_inv h props Hret) as (dirs & _ & _ & Htree).
  destruct (completed_readings h props (map assetBehavior dirs)) as (_ & _ & Ha & _).
  assert (Hsite : siteDomainName props =
                  Some (match optField subDomain props with
                        | Some s => if (s =? "")%string then d else s ++ "." ++ d
                        | None => d
                        end)).
  { unfold siteDomainName. rewrite Hdom. apply siteDomainNameOf_nonempty. exact Hd. }
  eexists. exists p. split; [|split; [|split]].
  - rewrite <- aliasRecords_own, Htree, Ha, Hz. reflexivity.
  - reflexivity.
  - exact Hdist.
  - rewrite Hn, Hsite. cbn [recordName].
    destruct (optField subDomain props); reflexivity.
Qed.

Lemma alias_record_names_the_site_domain_witness :
  snd (ReactServerStack (Sample.host Sample.threeEntries)
         (stackProps None (Some Sample.zoneExample) (Some "www") (Some "example.com") None))
  = Returned tt /\
  exists r p,
    aliasRecords
      (fst (ReactServerStack (Sample.host Sample.threeEntries)
              (stackProps None (Some Sample.zoneExample) (Some "www")
                          (Some "example.com") None)))
    = [("AliasRecord", r)] /\
    zone r = Sample.zoneExample /\
    distributions
      (fst (ReactServerStack (Sample.host Sample.threeEntries)
              (stackProps None (Some Sample.zoneExample) (Some "www")
                          (Some "example.com") None)))
    = [("CloudFront", p)] /\
    domainNames p = Some [if (recordName r =? "")%string then "example.com"
                          else recordName r ++ "." ++ "example.com"].
Proof.
  split; [reflexivity|].
  apply (alias_record_names_the_site_domain
           (Sample.host Sample.threeEntries)
           (stackProps None (Some Sample.zoneExample) (Some "www")
                       (Some "example.com") None)
           Sample.zoneExample "example.com");
    [reflexivity | reflexivity | reflexivity | discriminate].
Defined.

(** *** When no library constructor stops the run *)








